(** * claude_proxy: the request handler of scripts/claude_proxy.py

    A shallow embedding of [ClaudeProxyHandler] (its [do_GET] and [do_POST]
    methods, and the dispatch of [BaseHTTPRequestHandler] in front of them)
    as functions that return the ordered trace of the effects the handler
    performs: status lines, headers, bytes written to the client, lines
    printed, and the external command it runs. *)

From Stdlib Require Import List NArith ZArith String Ascii Bool Lia.
From Stdlib Require Import Floats.SpecFloat Numbers.DecimalString.
From Stdlib Require Strings.Byte.
Import ListNotations.

Set Warnings "-register-all".

Local Open Scope list_scope.
Local Open Scope N_scope.

(** ** Python text and bytes *)

(** A Python [str] is a sequence of Unicode code points. *)
Definition char := N.
Definition str := list char.
Definition bytes := list Byte.byte.

(** The text of a literal of the source. *)
Definition lit (s : string) : str :=
  map N_of_ascii (list_ascii_of_string s).

Arguments lit s%_string.

Definition nl : char := 10.
Definition dquote : char := 34.
Definition backslash : char := 92.

Definition str_eqb (a b : str) : bool :=
  if list_eq_dec N.eq_dec a b then true else false.

(** [str.isspace] on one code point: the set [str.strip()] and
    [str.split()] treat as whitespace. *)
Definition isspace (c : char) : bool :=
  ((9 <=? c) && (c <=? 13)) || ((28 <=? c) && (c <=? 32))
  || (c =? 133) || (c =? 160) || (c =? 5760)
  || ((8192 <=? c) && (c <=? 8202))
  || (c =? 8232) || (c =? 8233) || (c =? 8239) || (c =? 8287)
  || (c =? 12288).

Fixpoint dropwhile (p : char -> bool) (s : str) : str :=
  match s with
  | [] => []
  | c :: s' => if p c then dropwhile p s' else s
  end.

Definition lstrip (s : str) : str := dropwhile isspace s.
Definition rstrip (s : str) : str := rev (dropwhile isspace (rev s)).

(** [s.strip()] *)
Definition strip (s : str) : str := rstrip (lstrip s).

(** [s.split()]: [cur] is the word being scanned, if any. *)
Fixpoint split_from (cur : option str) (s : str) : list str :=
  match s with
  | [] => match cur with Some w => [w] | None => [] end
  | c :: s' =>
      if isspace c then
        match cur with
        | Some w => w :: split_from None s'
        | None => split_from None s'
        end
      else
        split_from (Some (match cur with Some w => w ++ [c] | None => [c] end)) s'
  end.

Definition split (s : str) : list str := split_from None s.

(** [len(x)] *)
Definition len {A} (l : list A) : Z := Z.of_nat (List.length l).

(** [sep.join(parts)] on parts that are all text. *)
Fixpoint join_str (sep : str) (parts : list str) : str :=
  match parts with
  | [] => []
  | [p] => p
  | p :: rest => p ++ sep ++ join_str sep rest
  end.

(** [c * n] for a one-character text. *)
Definition repeat_char (c : char) (n : nat) : str := repeat c n.

(** [s[:n]] for [n >= 0]. *)
Definition prefix (n : nat) (s : str) : str := firstn n s.

(** [str(n)] for an integer. *)
Definition int_str (n : Z) : str :=
  lit (NilZero.string_of_int (Z.to_int n)).

(** [s.replace(old, new)] for a one-character [old]. *)
Definition replace_char (old : char) (new : str) (s : str) : str :=
  flat_map (fun c => if c =? old then new else [c]) s.

(** [html.escape(s, quote=False)] *)
Definition html_escape (s : str) : str :=
  let s := replace_char 38 (lit "&amp;") s in
  let s := replace_char 60 (lit "&lt;") s in
  replace_char 62 (lit "&gt;") s.

(** *** UTF-8 *)

Definition byte_of (n : N) : Byte.byte :=
  match Byte.of_N n with Some b => b | None => Byte.x00 end.

(** The UTF-8 bytes of one code point; [None] for a surrogate, which
    UTF-8 cannot carry. *)
Definition utf8_char (c : char) : option bytes :=
  if c <? 128 then Some [byte_of c]
  else if c <? 2048 then
    Some [byte_of (N.lor 192 (N.shiftr c 6));
          byte_of (N.lor 128 (N.land c 63))]
  else if c <? 65536 then
    if (55296 <=? c) && (c <=? 57343) then None
    else Some [byte_of (N.lor 224 (N.shiftr c 12));
               byte_of (N.lor 128 (N.land (N.shiftr c 6) 63));
               byte_of (N.lor 128 (N.land c 63))]
  else
    Some [byte_of (N.lor 240 (N.land (N.shiftr c 18) 7));
          byte_of (N.lor 128 (N.land (N.shiftr c 12) 63));
          byte_of (N.lor 128 (N.land (N.shiftr c 6) 63));
          byte_of (N.lor 128 (N.land c 63))].

(** [s.encode()]: [None] stands for [UnicodeEncodeError]. *)
Fixpoint utf8 (s : str) : option bytes :=
  match s with
  | [] => Some []
  | c :: s' =>
      match utf8_char c, utf8 s' with
      | Some b, Some bs => Some (b ++ bs)
      | _, _ => None
      end
  end.

(** [s.encode('UTF-8', 'replace')]: a surrogate becomes [?]. *)
Definition utf8_replace (s : str) : bytes :=
  flat_map (fun c => match utf8_char c with
                     | Some b => b
                     | None => [byte_of 63]
                     end) s.

(** The bytes of a text that is all ASCII. *)
Definition ascii_bytes (s : str) : bytes := map byte_of s.

(** ** Python values *)

(** The values [json.loads] produces and [json.dumps] accepts. A [dict]
    keeps its keys in insertion order; a lookup takes the first binding
    of the key. *)
Inductive value : Type :=
| VNone
| VBool (b : bool)
| VInt (n : Z)
| VFloat (f : spec_float)
| VStr (s : str)
| VList (l : list value)
| VDict (d : list (str * value)).

Definition dict := list (str * value).

(** [d.get(key)], [None] when the key is absent. *)
Fixpoint dict_get (key : str) (d : dict) : option value :=
  match d with
  | [] => None
  | (k, v) :: d' => if str_eqb key k then Some v else dict_get key d'
  end.

(** [d.get(key, default)] *)
Definition dict_get_default (key : str) (default : value) (d : dict) : value :=
  match dict_get key d with Some v => v | None => default end.

(** [del d[key]] *)
Definition dict_del (key : str) (d : dict) : dict :=
  filter (fun kv => negb (str_eqb key (fst kv))) d.

(** [d[key] = v] on a dictionary that does not hold [key]. *)
Definition dict_add (key : str) (v : value) (d : dict) : dict := d ++ [(key, v)].

(** [type(v).__name__] *)
Definition type_name (v : value) : str :=
  match v with
  | VNone => lit "NoneType"
  | VBool _ => lit "bool"
  | VInt _ => lit "int"
  | VFloat _ => lit "float"
  | VStr _ => lit "str"
  | VList _ => lit "list"
  | VDict _ => lit "dict"
  end.

(** [bool(v)], the test of [if v:]. *)
Definition truthy (v : value) : bool :=
  match v with
  | VNone => false
  | VBool b => b
  | VInt n => negb (Z.eqb n 0)
  | VFloat (S754_zero _) => false
  | VFloat _ => true
  | VStr s => negb (str_eqb s [])
  | VList l => match l with [] => false | _ => true end
  | VDict d => match d with [] => false | _ => true end
  end.

(** ** Exceptions and effects *)

Inductive exc_class :=
| JSONDecodeError
| TimeoutExpired
| AttributeError
| TypeError
| UnicodeEncodeError
| OtherException.

(** An exception: its class and [str(e)]. Every class here derives from
    [Exception]. *)
Record exception := Exc { exc_type : exc_class; exc_str : str }.

(** [subprocess.CompletedProcess] of a run with [capture_output=True,
    text=True]. *)
Record CompletedProcess := {
  returncode : Z;
  stdout : str;
  stderr : str
}.

(** What the handler does to the outside, in order. [SendResponse] is
    the status line (with the [Server] and [Date] headers that
    [send_response] adds to it); [Run] is [subprocess.run] of a command
    line with a timeout in seconds. *)
Inductive event :=
| SendResponse (code : Z) (message : option str)
| SendHeader (keyword val : str)
| EndHeaders
| WriteBody (data : bytes)
| PrintLine (text : str)
| Run (argv : list str) (timeout : Z).

(** A computation performs some effects and then returns or raises. *)
Definition M (A : Type) : Type := (list event * (exception + A))%type.

Definition ret {A} (a : A) : M A := ([], inr a).
Definition raise {A} (e : exception) : M A := ([], inl e).
Definition emit (ev : event) : M unit := ([ev], inr tt).

Definition bind {A B} (m : M A) (k : A -> M B) : M B :=
  match m with
  | (t, inl e) => (t, inl e)
  | (t, inr a) => let (t', r) := k a in (t ++ t', r)
  end.

(** [try: m  except ...: h e]; [h e = None] when no clause matches [e]. *)
Definition try_except {A} (m : M A) (h : exception -> option (M A)) : M A :=
  match m with
  | (t, inl e) =>
      match h e with
      | Some (t', r) => (t ++ t', r)
      | None => (t, inl e)
      end
  | (t, inr a) => (t, inr a)
  end.

(** The outcome of a call that has no effect of its own. *)
Definition call {A} (r : exception + A) : M A := ([], r).

Declare Scope py_scope.
Delimit Scope py_scope with py.
Notation "x <- m ;; k" := (bind m (fun x => k))
  (at level 61, m at next level, right associativity) : py_scope.
Notation "m ;; k" := (bind m (fun _ => k))
  (at level 61, right associativity) : py_scope.
Local Open Scope py_scope.

(** The parts of the run-time that are not modelled here: [repr] of a
    value, [json.loads] on the bytes of a body, [subprocess.run], which
    stands for the external command, and the encoding of [sys.stdout]:
    which characters beyond ASCII it encodes, and [str(e)] of the
    [UnicodeEncodeError] it raises on a text it cannot encode. *)
Class Externals := {
  builtin_repr : value -> str;
  json_loads : bytes -> exception + value;
  subprocess_run : list str -> Z -> exception + CompletedProcess;
  stdout_encodes : char -> bool;
  stdout_error : str -> str
}.

(** The request as [BaseHTTPRequestHandler] hands it to a method:
    [self.command], [self.path] (the request target as [parse_request]
    leaves it: query string included, a leading run of slashes reduced
    to one) and the outcome of lines 33-34,
    [self.rfile.read(int(self.headers.get('Content-Length', 0)))]. *)
Record Request := {
  command : str;
  path : str;
  rfile_read : exception + bytes
}.

(** ** json.dumps *)

Definition hex_digit (n : N) : char := if n <? 10 then 48 + n else 87 + n.

(** ['{0:04x}'.format(n)] for [n < 0x10000]. *)
Definition hex4 (n : N) : str :=
  [hex_digit (N.land (N.shiftr n 12) 15); hex_digit (N.land (N.shiftr n 8) 15);
   hex_digit (N.land (N.shiftr n 4) 15); hex_digit (N.land n 15)].

(** The replacement of one character in [encode_basestring_ascii]. *)
Definition escape_ascii (c : char) : str :=
  if c =? backslash then [backslash; backslash]
  else if c =? dquote then [backslash; dquote]
  else if c =? 8 then lit "\b"
  else if c =? 12 then lit "\f"
  else if c =? 10 then lit "\n"
  else if c =? 13 then lit "\r"
  else if c =? 9 then lit "\t"
  else if (32 <=? c) && (c <=? 126) then [c]
  else if c <? 65536 then lit "\u" ++ hex4 c
  else
    let n := c - 65536 in
    let s1 := N.lor 55296 (N.land (N.shiftr n 10) 1023) in
    let s2 := N.lor 56320 (N.land n 1023) in
    lit "\u" ++ hex4 s1 ++ lit "\u" ++ hex4 s2.

Definition encode_basestring_ascii (s : str) : str :=
  [dquote] ++ flat_map escape_ascii s ++ [dquote].

Section Dumps.
Context {X : Externals}.

Definition float_str (f : spec_float) : str :=
  match f with
  | S754_nan => lit "NaN"
  | S754_infinity false => lit "Infinity"
  | S754_infinity true => lit "-Infinity"
  | _ => builtin_repr (VFloat f)
  end.

(** [json.dumps(v)] with the default settings. *)
Fixpoint json_dumps (v : value) : str :=
  match v with
  | VNone => lit "null"
  | VBool true => lit "true"
  | VBool false => lit "false"
  | VInt n => int_str n
  | VFloat f => float_str f
  | VStr s => encode_basestring_ascii s
  | VList l =>
      match l with
      | [] => lit "[]"
      | x :: xs =>
          lit "[" ++ json_dumps x
          ++ (fix items (l : list value) : str :=
                match l with
                | [] => []
                | y :: l' => lit ", " ++ json_dumps y ++ items l'
                end) xs
          ++ lit "]"
      end
  | VDict d =>
      match d with
      | [] => lit "{}"
      | (k, x) :: kvs =>
          lit "{" ++ encode_basestring_ascii k ++ lit ": " ++ json_dumps x
          ++ (fix items (l : list (str * value)) : str :=
                match l with
                | [] => []
                | (k', y) :: l' =>
                    lit ", " ++ encode_basestring_ascii k' ++ lit ": "
                    ++ json_dumps y ++ items l'
                end) kvs
          ++ lit "}"
      end
  end.
End Dumps.

(** ** BaseHTTPRequestHandler *)

Definition send_response (code : Z) : M unit := emit (SendResponse code None).
Definition send_header (keyword val : str) : M unit := emit (SendHeader keyword val).
Definition end_headers : M unit := emit EndHeaders.
Definition wfile_write (data : bytes) : M unit := emit (WriteBody data).

(** [sys.stdout] can encode the text: every encoding encodes ASCII. *)
Definition prints {X : Externals} (text : str) : bool :=
  forallb (fun c => (c <? 128) || stdout_encodes c) text.

(** [print(text)] on an open [sys.stdout]: the text is written, or
    [UnicodeEncodeError] is raised and nothing is written. *)
Definition print {X : Externals} (text : str) : M unit :=
  if prints text then emit (PrintLine text)
  else raise (Exc UnicodeEncodeError (stdout_error text)).

(** [s.encode()] *)
Definition encode (s : str) : M bytes :=
  match utf8 s with
  | Some b => ret b
  | None =>
      raise (Exc UnicodeEncodeError
               (lit "'utf-8' codec can't encode character: surrogates not allowed"))
  end.

(** The entries of [BaseHTTPRequestHandler.responses] for the status
    codes this program sends: reason phrase and explanation. *)
Definition responses (code : Z) : option (str * str) :=
  if Z.eqb code 200 then Some (lit "OK", lit "Request fulfilled, document follows")
  else if Z.eqb code 400 then
    Some (lit "Bad Request", lit "Bad request syntax or unsupported method")
  else if Z.eqb code 404 then Some (lit "Not Found", lit "Nothing matches the given URI")
  else if Z.eqb code 500 then
    Some (lit "Internal Server Error", lit "Server got itself in trouble")
  else if Z.eqb code 501 then
    Some (lit "Not Implemented", lit "Server does not support this operation")
  else if Z.eqb code 504 then
    Some (lit "Gateway Timeout",
          lit "The gateway server did not receive a timely response")
  else None.

(** [DEFAULT_ERROR_MESSAGE % {'code': ..., 'message': ..., 'explain': ...}] *)
Definition error_message_format (code : Z) (message explain : str) : str :=
  join_str [nl]
    [ lit "<!DOCTYPE HTML>";
      lit "<html lang=" ++ [dquote] ++ lit "en" ++ [dquote] ++ lit ">";
      lit "    <head>";
      lit "        <meta charset=" ++ [dquote] ++ lit "utf-8" ++ [dquote] ++ lit ">";
      lit "        <title>Error response</title>";
      lit "    </head>";
      lit "    <body>";
      lit "        <h1>Error response</h1>";
      lit "        <p>Error code: " ++ int_str code ++ lit "</p>";
      lit "        <p>Message: " ++ message ++ lit ".</p>";
      lit "        <p>Error code explanation: " ++ int_str code ++ lit " - "
        ++ explain ++ lit ".</p>";
      lit "    </body>";
      lit "</html>";
      [] ].

Definition error_content_type : str := lit "text/html;charset=utf-8".

(** [self.send_error(code, message)] *)
Definition send_error (self : Request) (code : Z) (message : str) : M unit :=
  let explain :=
    match responses code with Some (_, longmsg) => longmsg | None => lit "???" end in
  emit (SendResponse code (Some message)) ;;
  send_header (lit "Connection") (lit "close") ;;
  body <-
    (if Z.leb 200 code
        && negb (Z.eqb code 204 || Z.eqb code 205 || Z.eqb code 304)
     then
       let content :=
         error_message_format code (html_escape message) (html_escape explain) in
       let body := utf8_replace content in
       send_header (lit "Content-Type") error_content_type ;;
       send_header (lit "Content-Length") (int_str (len body)) ;;
       ret (Some body)
     else ret None) ;;
  end_headers ;;
  match body with
  | Some (b :: bs) =>
      if negb (str_eqb (command self) (lit "HEAD")) then wfile_write (b :: bs)
      else ret tt
  | _ => ret tt
  end.

(** ** ClaudeProxyHandler *)

Section Handler.
Context {X : Externals}.

(** [v.get]: only a [dict] has the attribute. *)
Definition get_method (v : value) : M dict :=
  match v with
  | VDict d => ret d
  | _ =>
      raise (Exc AttributeError
               (lit "'" ++ type_name v ++ lit "' object has no attribute 'get'"))
  end.

(** The items [for msg in v] runs through. *)
Definition iterate (v : value) : M (list value) :=
  match v with
  | VList l => ret l
  | VStr s => ret (map (fun c => VStr [c]) s)
  | VDict d => ret (map (fun kv => VStr (fst kv)) d)
  | _ =>
      raise (Exc TypeError (lit "'" ++ type_name v ++ lit "' object is not iterable"))
  end.

(** [f"{v}"] *)
Definition format_value (v : value) : str :=
  match v with
  | VStr s => s
  | _ => builtin_repr v
  end.

(** [sep.join(parts)]: every part must be a [str]; [i] is the index of
    the first part. *)
Fixpoint str_join_from (i : Z) (sep : str) (parts : list value) : M (list str) :=
  match parts with
  | [] => ret []
  | VStr s :: rest =>
      ss <- str_join_from (i + 1) sep rest ;;
      ret (s :: ss)
  | v :: _ =>
      raise (Exc TypeError
               (lit "sequence item " ++ int_str i ++ lit ": expected str instance, "
                ++ type_name v ++ lit " found"))
  end.

Definition str_join (sep : str) (parts : list value) : M str :=
  ss <- str_join_from 0 sep parts ;;
  ret (join_str sep ss).

(** Lines 51-53: the loop over [messages], appending to [prompt_parts]. *)
Fixpoint for_msg_in (messages : list value) (prompt_parts : list value)
  : M (list value) :=
  match messages with
  | [] => ret prompt_parts
  | msg :: rest =>
      m <- get_method msg ;;
      let content := dict_get_default (lit "content") (VStr []) m in
      for_msg_in rest (prompt_parts ++ [content])
  end.

(** Lines 42-55: the prompt built from the parsed body. *)
Definition full_prompt (data : value) : M str :=
  d <- get_method data ;;
  let messages := dict_get_default (lit "messages") (VList []) d in
  d' <- get_method data ;;
  let system := dict_get_default (lit "system") (VStr []) d' in
  let prompt_parts :=
    if truthy system then [VStr (format_value system ++ [nl])] else [] in
  items <- iterate messages ;;
  prompt_parts <- for_msg_in items prompt_parts ;;
  str_join [nl] prompt_parts.

(** [s[:500] + "..." if len(s) > 500 else s] *)
Definition truncated (s : str) : str :=
  if Z.ltb 500 (len s) then prefix 500 s ++ lit "..." else s.

Definition error_payload (message : str) : value :=
  VDict [(lit "error", VDict [(lit "message", VStr message)])].

Definition do_GET (self : Request) : M unit :=
  if str_eqb (path self) (lit "/health") then
    send_response 200 ;;
    send_header (lit "Content-Type") (lit "application/json") ;;
    end_headers ;;
    b <- encode (json_dumps (VDict [(lit "status", VStr (lit "ok"))])) ;;
    wfile_write b
  else
    send_response 404 ;;
    end_headers.

Definition response_payload (response_text full_prompt : str) : value :=
  VDict
    [ (lit "content",
       VList [VDict [(lit "type", VStr (lit "text")); (lit "text", VStr response_text)]]);
      (lit "model", VStr (lit "claude-cli"));
      (lit "usage",
       VDict [ (lit "input_tokens", VInt (len (split full_prompt)));
               (lit "output_tokens", VInt (len (split response_text))) ]) ].

(** [self.send_response(code)], the JSON content type, the end of the
    headers and [self.wfile.write(json.dumps(payload).encode())]. *)
Definition send_json (code : Z) (payload : value) : M unit :=
  send_response code ;;
  send_header (lit "Content-Type") (lit "application/json") ;;
  end_headers ;;
  b <- encode (json_dumps payload) ;;
  wfile_write b.

(** [subprocess.run(argv, capture_output=True, text=True, timeout=t)] *)
Definition run (argv : list str) (t : Z) : M CompletedProcess :=
  emit (Run argv t) ;;
  call (subprocess_run argv t).

(** Lines 42-114 of [do_POST]: what the method does with the parsed
    body [data]. *)
Definition handle_chat (data : value) : M unit :=
  full_prompt <- full_prompt data ;;
  print ([nl] ++ repeat_char 61 50) ;;
  print (lit "PROMPT:") ;;
  print (truncated full_prompt) ;;
  print (repeat_char 61 50) ;;
  try_except
    (result <- run [lit "claude"; lit "-p"; full_prompt] 120 ;;
     let response_text := strip (stdout result) in
     if negb (Z.eqb (returncode result) 0) then
       send_json 500 (error_payload (lit "Claude CLI error: " ++ stderr result))
     else
       print ([nl] ++ lit "RESPONSE:") ;;
       print (truncated response_text) ;;
       print (repeat_char 61 50 ++ [nl]) ;;
       let response := response_payload response_text full_prompt in
       send_json 200 response)
    (fun e =>
       match exc_type e with
       | TimeoutExpired =>
           Some (send_json 504 (error_payload (lit "Claude CLI timeout")))
       | _ => Some (send_json 500 (error_payload (exc_str e)))
       end).

(** Lines 27-40 of [do_POST], then [handle_chat]. *)
Definition do_POST (self : Request) : M unit :=
  if negb (str_eqb (path self) (lit "/v1/messages")) then
    send_response 404 ;;
    end_headers
  else
    body <- call (rfile_read self) ;;
    parsed <-
      try_except
        (data <- call (json_loads body) ;;
         ret (Some data))
        (fun e =>
           match exc_type e with
           | JSONDecodeError =>
               Some (send_error self 400 (lit "Invalid JSON: " ++ exc_str e) ;;
                     ret None)
           | _ => None
           end) ;;
    match parsed with
    | None => ret tt
    | Some data => handle_chat data
    end.

(** [BaseHTTPRequestHandler.handle_one_request] after the request line
    is parsed: the method [do_<command>] is called when the class has
    one, and the class has [do_GET] and [do_POST]. *)
Definition handle_one_request (self : Request) : M unit :=
  if str_eqb (command self) (lit "GET") then do_GET self
  else if str_eqb (command self) (lit "POST") then do_POST self
  else
    send_error self 501
      (lit "Unsupported method (" ++ builtin_repr (VStr (command self)) ++ lit ")").

End Handler.

(** ** Reading a trace *)

(** The status codes sent, in order. *)
Fixpoint statuses (t : list event) : list Z :=
  match t with
  | [] => []
  | SendResponse code _ :: t' => code :: statuses t'
  | _ :: t' => statuses t'
  end.

(** The bytes written to the client after the headers. *)
Fixpoint body_of (t : list event) : bytes :=
  match t with
  | [] => []
  | WriteBody b :: t' => b ++ body_of t'
  | _ :: t' => body_of t'
  end.

(** The commands run, each with its timeout. *)
Fixpoint runs (t : list event) : list (list str * Z) :=
  match t with
  | [] => []
  | Run argv timeout :: t' => (argv, timeout) :: runs t'
  | _ :: t' => runs t'
  end.

(** The headers sent with [send_header]. *)
Fixpoint headers_of (t : list event) : list (str * str) :=
  match t with
  | [] => []
  | SendHeader k v :: t' => (k, v) :: headers_of t'
  | _ :: t' => headers_of t'
  end.

Definition trace {A} (m : M A) : list event := fst m.
Definition outcome {A} (m : M A) : exception + A := snd m.

(** ** The request the specification describes *)

(** A message: an object whose [content], when present, is a text. *)
Definition is_message (msg : value) : bool :=
  match msg with
  | VDict m =>
      match dict_get (lit "content") m with
      | None | Some (VStr _) => true
      | Some _ => false
      end
  | _ => false
  end.

(** A ChatRequest: an object whose [system], when present, is a text and
    whose [messages], when present, is a sequence of messages. Other
    keys are free. *)
Definition is_chat_request (data : value) : bool :=
  match data with
  | VDict d =>
      match dict_get (lit "system") d with
      | None | Some (VStr _) => true
      | Some _ => false
      end
      && match dict_get (lit "messages") d with
         | None => true
         | Some (VList msgs) => forallb is_message msgs
         | Some _ => false
         end
  | _ => false
  end.

(** The text of a message's [content]; empty when there is none. *)
Definition content_text (msg : value) : str :=
  match msg with
  | VDict m =>
      match dict_get (lit "content") m with
      | Some (VStr s) => s
      | _ => []
      end
  | _ => []
  end.

(** The content texts of a ChatRequest, in input order. *)
Definition chat_contents (data : value) : list str :=
  match data with
  | VDict d =>
      match dict_get (lit "messages") d with
      | Some (VList msgs) => map content_text msgs
      | _ => []
      end
  | _ => []
  end.

(** The system text of a ChatRequest; empty when there is none. *)
Definition chat_system (data : value) : str :=
  match data with
  | VDict d =>
      match dict_get (lit "system") d with
      | Some (VStr s) => s
      | _ => []
      end
  | _ => []
  end.

(** The prompt of a ChatRequest: the system text and a newline as a
    first part when the text is not empty, then the content texts, all
    parts joined by newlines. *)
Definition chat_prompt (data : value) : str :=
  join_str [nl]
    ((if str_eqb (chat_system data) [] then [] else [chat_system data ++ [nl]])
     ++ chat_contents data).

(** The command line and the time bound of the external command. *)
Definition claude_call (prompt : str) : list str * Z :=
  ([lit "claude"; lit "-p"; prompt], 120%Z).

(** ** Predicates and traces used in the statements *)

(** The text is all ASCII. *)
Definition is_ascii (s : str) : bool := forallb (fun c => c <? 128) s.

(** A word: not empty and free of whitespace. *)
Definition is_word (w : str) : bool :=
  negb (str_eqb w []) && forallb (fun c => negb (isspace c)) w.

(** The events of a JSON response. *)
Definition json_response {X : Externals} (code : Z) (payload : value) : list event :=
  [ SendResponse code None;
    SendHeader (lit "Content-Type") (lit "application/json");
    EndHeaders;
    WriteBody (ascii_bytes (json_dumps payload)) ].

(** The lines printed before the command runs. *)
Definition prompt_log {X : Externals} (prompt : str) : list event :=
  [ PrintLine ([nl] ++ repeat_char 61 50); PrintLine (lit "PROMPT:");
    PrintLine (truncated prompt); PrintLine (repeat_char 61 50) ].

(** The lines printed when the command has succeeded. *)
Definition response_log {X : Externals} (response_text : str) : list event :=
  [ PrintLine ([nl] ++ lit "RESPONSE:"); PrintLine (truncated response_text);
    PrintLine (repeat_char 61 50 ++ [nl]) ].

(** What follows the run of the command, by its outcome; a response
    text that cannot be printed ends in the generic 500. *)
Definition reply {X : Externals} (prompt : str) (r : exception + CompletedProcess)
  : list event :=
  match r with
  | inr result =>
      if Z.eqb (returncode result) 0 then
        if prints (truncated (strip (stdout result))) then
          response_log (strip (stdout result))
          ++ json_response 200 (response_payload (strip (stdout result)) prompt)
        else
          PrintLine ([nl] ++ lit "RESPONSE:")
          :: json_response 500
               (error_payload (stdout_error (truncated (strip (stdout result)))))
      else
        json_response 500 (error_payload (lit "Claude CLI error: " ++ stderr result))
  | inl e =>
      match exc_type e with
      | TimeoutExpired => json_response 504 (error_payload (lit "Claude CLI timeout"))
      | _ => json_response 500 (error_payload (exc_str e))
      end
  end.

(** The request is a POST to the messages route. *)
Definition posts_messages (self : Request) : Prop :=
  command self = lit "POST" /\ path self = lit "/v1/messages".

(** The body of the request is read and [json.loads] turns it into
    [data]. *)
Definition parses_as {X : Externals} (self : Request) (data : value) : Prop :=
  exists body, rfile_read self = inr body /\ json_loads body = inr data.

(** The path component of a request target: what precedes the query
    string. *)
Fixpoint url_path (target : str) : str :=
  match target with
  | [] => []
  | c :: rest => if c =? 63 then [] else c :: url_path rest
  end.

(** ** A run-time for the examples *)

Module Sample.

(** A word between double quotes. *)
Definition quoted (s : string) : str := [dquote] ++ lit s ++ [dquote].

(** [[{"content": "A"}, {"content": "B"}]] *)
Definition messages_A_B : value :=
  VList [VDict [(lit "content", VStr (lit "A"))];
         VDict [(lit "content", VStr (lit "B"))]].

Definition messages_A_B_text : str :=
  quoted "messages" ++ lit ": [{" ++ quoted "content" ++ lit ": " ++ quoted "A"
  ++ lit "}, {" ++ quoted "content" ++ lit ": " ++ quoted "B" ++ lit "}]".

(** [{"system": "S", "messages": [{"content": "A"}, {"content": "B"}]}] *)
Definition data_S_A_B : value :=
  VDict [(lit "system", VStr (lit "S")); (lit "messages", messages_A_B)].

Definition body_S_A_B : bytes :=
  ascii_bytes (lit "{" ++ quoted "system" ++ lit ": " ++ quoted "S" ++ lit ", "
               ++ messages_A_B_text ++ lit "}").

(** [{"messages": [{"content": "A"}, {"content": "B"}]}] *)
Definition data_A_B : value := VDict [(lit "messages", messages_A_B)].

Definition body_A_B : bytes :=
  ascii_bytes (lit "{" ++ messages_A_B_text ++ lit "}").

(** The same with the empty text as [system]. *)
Definition data_empty_system : value :=
  VDict [(lit "system", VStr []); (lit "messages", messages_A_B)].

Definition body_empty_system : bytes :=
  ascii_bytes (lit "{" ++ quoted "system" ++ lit ": " ++ [dquote; dquote] ++ lit ", "
               ++ messages_A_B_text ++ lit "}").

(** [{"system": "S"}] *)
Definition data_S : value := VDict [(lit "system", VStr (lit "S"))].

Definition body_S : bytes :=
  ascii_bytes (lit "{" ++ quoted "system" ++ lit ": " ++ quoted "S" ++ lit "}").

(** [{"system": "S", "messages": []}] *)
Definition data_S_no_messages : value :=
  VDict [(lit "system", VStr (lit "S")); (lit "messages", VList [])].

Definition body_S_no_messages : bytes :=
  ascii_bytes (lit "{" ++ quoted "system" ++ lit ": " ++ quoted "S" ++ lit ", "
               ++ quoted "messages" ++ lit ": []}").

(** A body that is not JSON: an opening brace alone. *)
Definition body_malformed : bytes := ascii_bytes (lit "{").

Definition bytes_eqb (a b : bytes) : bool :=
  if list_eq_dec Byte.byte_eq_dec a b then true else false.

(** [json.loads] on the bodies above; on any other body the error of
    the empty body, which is the only other one the examples use. *)
Definition loads (body : bytes) : exception + value :=
  if bytes_eqb body body_S_A_B then inr data_S_A_B
  else if bytes_eqb body body_A_B then inr data_A_B
  else if bytes_eqb body body_empty_system then inr data_empty_system
  else if bytes_eqb body body_S then inr data_S
  else if bytes_eqb body body_S_no_messages then inr data_S_no_messages
  else if bytes_eqb body body_malformed then
    inl (Exc JSONDecodeError
           (lit "Expecting property name enclosed in double quotes: line 1 column 2 (char 1)"))
  else inl (Exc JSONDecodeError (lit "Expecting value: line 1 column 1 (char 0)")).

(** [repr] of the values the examples print: [None], a truth value, an
    integer, and a text of plain letters between single quotes. *)
Definition repr (v : value) : str :=
  match v with
  | VNone => lit "None"
  | VBool true => lit "True"
  | VBool false => lit "False"
  | VInt n => int_str n
  | VStr s => lit "'" ++ s ++ lit "'"
  | _ => lit "?"
  end.

(** A standard output in UTF-8: every character but a surrogate. *)
Definition utf8_encodes (c : char) : bool :=
  match utf8_char c with Some _ => true | None => false end.

(** The place and the code of the first surrogate from place [i] on. *)
Fixpoint first_surrogate (i : Z) (text : str) : Z * char :=
  match text with
  | [] => (i, 0)
  | c :: rest => if utf8_encodes c then first_surrogate (i + 1) rest else (i, c)
  end.

(** [str(e)] of the error of the UTF-8 codec on a text whose first
    surrogate stands alone. *)
Definition utf8_error (text : str) : str :=
  let (i, c) := first_surrogate 0 text in
  lit "'utf-8' codec can't encode character '\u" ++ hex4 c ++ lit "' in position "
  ++ int_str i ++ lit ": surrogates not allowed".

(** The run-time in which every run of the command ends as [r]. *)
Definition runtime (r : exception + CompletedProcess) : Externals :=
  {| builtin_repr := repr; json_loads := loads; subprocess_run := fun _ _ => r;
     stdout_encodes := utf8_encodes; stdout_error := utf8_error |}.

(** The command prints [Hello] and a newline and exits with 0. *)
Definition says_hello : exception + CompletedProcess :=
  inr {| returncode := 0; stdout := lit "Hello" ++ [nl]; stderr := [] |}.

(** The command exits with 1 and [boom] on its standard error. *)
Definition fails : exception + CompletedProcess :=
  inr {| returncode := 1; stdout := []; stderr := lit "boom" |}.


(** The command cannot be started. *)
Definition is_missing : exception + CompletedProcess :=
  inl (Exc OtherException (lit "[Errno 2] No such file or directory: 'claude'")).

Definition post (body : bytes) : Request :=
  {| command := lit "POST"; path := lit "/v1/messages"; rfile_read := inr body |}.

Definition request (method target : string) : Request :=
  {| command := lit method; path := lit target; rfile_read := inr [] |}.

(** [GET /health?probe=1] *)
Definition health_probe : Request := request "GET" "/health?probe=1".

(** [PUT /v1/messages] *)
Definition put_messages : Request := request "PUT" "/v1/messages".

End Sample.

(** ** What the code accepts *)

(** [v] has a [get] method. *)
Definition has_get (v : value) : bool :=
  match v with VDict _ => true | _ => false end.

(** The items of [for msg in v]; [None] when [v] cannot be iterated. *)
Definition items_of (v : value) : option (list value) :=
  match v with
  | VList l => Some l
  | VStr s => Some (map (fun c => VStr [c]) s)
  | VDict d => Some (map (fun kv => VStr (fst kv)) d)
  | _ => None
  end.

(** [msg.get('content', '')] of a message that is an object. *)
Definition content_of (msg : value) : value :=
  match msg with
  | VDict m => dict_get_default (lit "content") (VStr []) m
  | _ => VStr []
  end.

Definition is_text (v : value) : bool :=
  match v with VStr _ => true | _ => false end.

Definition text_of (v : value) : str :=
  match v with VStr s => s | _ => [] end.

(** The class of the exception lines 42-55 end in, [None] when they
    build a prompt: the body is not an object, [messages] cannot be
    iterated, an item of [messages] is not an object, or a [content] is
    not a text. *)
Definition prompt_failure (data : value) : option exc_class :=
  match data with
  | VDict d =>
      match items_of (dict_get_default (lit "messages") (VList []) d) with
      | None => Some TypeError
      | Some items =>
          if negb (forallb has_get items) then Some AttributeError
          else if negb (forallb (fun msg => is_text (content_of msg)) items)
               then Some TypeError
               else None
      end
  | _ => Some AttributeError
  end.

(** The prompt lines 42-55 build when they do not fail. *)
Definition prompt_text {X : Externals} (data : value) : str :=
  match data with
  | VDict d =>
      let system := dict_get_default (lit "system") (VStr []) d in
      let items :=
        match items_of (dict_get_default (lit "messages") (VList []) d) with
        | Some l => l
        | None => []
        end in
      join_str [nl]
        ((if truthy system then [format_value system ++ [nl]] else [])
         ++ map (fun msg => text_of (content_of msg)) items)
  | _ => []
  end.

(** [len(s.split())] *)
Definition word_count (s : str) : Z := len (split s).

Definition sum_Z (l : list Z) : Z := fold_right Z.add 0%Z l.

(** The texts printed, in order. *)
Fixpoint printed (t : list event) : list str :=
  match t with
  | [] => []
  | PrintLine text :: t' => text :: printed t'
  | _ :: t' => printed t'
  end.


(** ** A second run-time for examples *)

Module Demo.

(** The text [json.dumps] gives for a value. *)
Definition json_text (v : value) : bytes :=
  ascii_bytes (json_dumps (X := Sample.runtime Sample.says_hello) v).

(** A body that is not UTF-8: the single byte 0xff. *)
Definition body_not_utf8 : bytes := [Byte.xff].

(** [json.loads] on the texts of the values [known], on the byte 0xff
    and, for any other body, with the error of the empty body. *)
Fixpoint loads (known : list value) (body : bytes) : exception + value :=
  match known with
  | [] =>
      if Sample.bytes_eqb body body_not_utf8 then
        inl (Exc OtherException
               (lit "'utf-8' codec can't decode byte 0xff in position 0: invalid start byte"))
      else inl (Exc JSONDecodeError (lit "Expecting value: line 1 column 1 (char 0)"))
  | v :: rest =>
      if Sample.bytes_eqb body (json_text v) then inr v else loads rest body
  end.

(** The run-time that knows the bodies of [known] and in which every
    run of the command ends as [r]. *)
Definition runtime (known : list value) (r : exception + CompletedProcess)
  : Externals :=
  {| builtin_repr := Sample.repr; json_loads := loads known;
     subprocess_run := fun _ _ => r;
     stdout_encodes := Sample.utf8_encodes; stdout_error := Sample.utf8_error |}.

(** The POST of the text of [v] to the messages route. *)
Definition post (v : value) : Request := Sample.post (json_text v).

(** A request whose Content-Length is not a number. *)
Definition bad_length : Request :=
  {| command := lit "POST"; path := lit "/v1/messages";
     rfile_read :=
       inl (Exc OtherException (lit "invalid literal for int() with base 10: 'abc'")) |}.

Definition message (content : string) : value :=
  VDict [(lit "role", VStr (lit "user")); (lit "content", VStr (lit content))].

(** [[]], a JSON array. *)
Definition data_array : value := VList [].

(** [{"messages": null}] *)
Definition data_null_messages : value := VDict [(lit "messages", VNone)].

(** [{"messages": [1]}] *)
Definition data_number_message : value := VDict [(lit "messages", VList [VInt 1])].

(** A message whose content is a list of blocks. *)
Definition data_block_content : value :=
  VDict [(lit "messages",
          VList [VDict [(lit "content", VList [VStr (lit "x")])]])].

(** [{}] *)
Definition data_empty : value := VDict [].

(** A request with [model] and [max_tokens], a system and two turns. *)
Definition data_full : value :=
  VDict [ (lit "model", VStr (lit "claude-3")); (lit "max_tokens", VInt 1024);
          (lit "system", VStr (lit "Be brief"));
          (lit "messages", VList [message "hello there"; message "bye"]) ].

(** The same system and contents, nothing else. *)
Definition data_bare : value :=
  VDict [ (lit "system", VStr (lit "Be brief"));
          (lit "messages",
           VList [ VDict [(lit "content", VStr (lit "hello there"))];
                   VDict [(lit "content", VStr (lit "bye"))] ]) ].

(** No system; the system text and an empty content put first. *)
Definition data_folded : value :=
  VDict [ (lit "messages",
           VList [ VDict [(lit "content", VStr (lit "Be brief"))];
                   VDict [(lit "content", VStr [])];
                   VDict [(lit "content", VStr (lit "hello there"))];
                   VDict [(lit "content", VStr (lit "bye"))] ]) ].

(** [system] is [null]. *)
Definition data_null_system : value :=
  VDict [ (lit "system", VNone);
          (lit "messages", VList [VDict [(lit "content", VStr (lit "hi"))]]) ].

(** [system] is the number 7. *)
Definition data_number_system : value := VDict [(lit "system", VInt 7)].

(** One message whose content is the lone surrogate U+D83D. *)
Definition data_surrogate : value :=
  VDict [(lit "messages", VList [VDict [(lit "content", VStr [55357])]])].

Definition known : list value :=
  [ data_array; data_null_messages; data_number_message; data_block_content;
    data_empty; data_full; data_bare; data_folded; data_null_system;
    data_number_system; data_surrogate ].

(** The command prints only blank space and exits with 0. *)
Definition says_nothing : exception + CompletedProcess :=
  inr {| returncode := 0; stdout := lit "  " ++ [nl]; stderr := [] |}.

(** The command prints the word caf\u00e9 and exits with 0. *)
Definition says_cafe : exception + CompletedProcess :=
  inr {| returncode := 0; stdout := lit "caf" ++ [233]; stderr := [] |}.

(** The place and the code of the first character above ASCII from
    place [i] on. *)
Fixpoint first_above_ascii (i : Z) (text : str) : Z * char :=
  match text with
  | [] => (i, 0)
  | c :: rest => if c <? 128 then first_above_ascii (i + 1) rest else (i, c)
  end.

(** [str(e)] of the error of the ASCII codec on a text whose first
    character above ASCII stands alone and is below U+0100. *)
Definition ascii_error (text : str) : str :=
  let (i, c) := first_above_ascii 0 text in
  lit "'ascii' codec can't encode character '\x"
  ++ [hex_digit (N.land (N.shiftr c 4) 15); hex_digit (N.land c 15)]
  ++ lit "' in position " ++ int_str i ++ lit ": ordinal not in range(128)".

(** The same run-time with a standard output in ASCII. *)
Definition runtime_ascii (known : list value) (r : exception + CompletedProcess)
  : Externals :=
  {| builtin_repr := Sample.repr; json_loads := loads known;
     subprocess_run := fun _ _ => r;
     stdout_encodes := fun _ => false; stdout_error := ascii_error |}.

End Demo.

(** * Lemmas *)

(** ** Text lemmas *)

Lemma str_eqb_eq (a b : str) : str_eqb a b = true <-> a = b.
Proof.
  unfold str_eqb. destruct (list_eq_dec N.eq_dec a b); split; congruence.
Qed.

Lemma str_eqb_refl (a : str) : str_eqb a a = true.
Proof. now apply str_eqb_eq. Qed.

Lemma str_eqb_neq (a b : str) : str_eqb a b = false <-> a <> b.
Proof.
  unfold str_eqb. destruct (list_eq_dec N.eq_dec a b); split; congruence.
Qed.


Lemma is_ascii_app (a b : str) : is_ascii (a ++ b) = is_ascii a && is_ascii b.
Proof. apply forallb_app. Qed.

Lemma utf8_ascii (s : str) : is_ascii s = true -> utf8 s = Some (ascii_bytes s).
Proof.
  induction s as [|c s IH]; simpl; intro H; [reflexivity|].
  apply andb_true_iff in H as [Hc Hs].
  unfold utf8_char. rewrite Hc, (IH Hs). reflexivity.
Qed.

Lemma hex_digit_ascii (n : N) : n < 16 -> (hex_digit n <? 128) = true.
Proof.
  intro H. unfold hex_digit. destruct (n <? 10); apply N.ltb_lt; lia.
Qed.

Lemma land_15_lt (n : N) : N.land n 15 < 16.
Proof.
  change 15 with (N.ones 4). rewrite N.land_ones.
  apply N.mod_lt. discriminate.
Qed.

Lemma hex4_ascii (n : N) : is_ascii (hex4 n) = true.
Proof.
  unfold hex4, is_ascii. cbn [forallb].
  rewrite !hex_digit_ascii by apply land_15_lt. reflexivity.
Qed.

Lemma escape_ascii_is_ascii (c : char) : is_ascii (escape_ascii c) = true.
Proof.
  unfold escape_ascii.
  repeat match goal with
         | |- context [if ?b then _ else _] => destruct b eqn:?
         end;
    rewrite ?is_ascii_app, ?hex4_ascii; try reflexivity.
  apply andb_true_iff in Heqb6 as [_ H].
  unfold is_ascii. cbn [forallb]. rewrite andb_true_r.
  apply N.ltb_lt. apply N.leb_le in H. lia.
Qed.

Lemma encode_basestring_ascii_is_ascii (s : str) :
  is_ascii (encode_basestring_ascii s) = true.
Proof.
  unfold encode_basestring_ascii. rewrite !is_ascii_app.
  replace (is_ascii (flat_map escape_ascii s)) with true; [reflexivity|].
  symmetry. induction s as [|c s IH]; [reflexivity|].
  cbn [flat_map]. now rewrite is_ascii_app, escape_ascii_is_ascii, IH.
Qed.

Lemma string_of_uint_ascii (d : Decimal.uint) :
  is_ascii (lit (NilEmpty.string_of_uint d)) = true.
Proof.
  induction d; simpl; auto.
Qed.

Lemma lit_cons_ascii (a : ascii) (x : string) :
  is_ascii (lit (String a x)) = (N_of_ascii a <? 128) && is_ascii (lit x).
Proof. reflexivity. Qed.

Lemma string_of_uint0_ascii (d : Decimal.uint) :
  is_ascii (lit (NilZero.string_of_uint d)) = true.
Proof.
  destruct d; try reflexivity; apply (string_of_uint_ascii (_ d)).
Qed.

Lemma int_str_ascii (n : Z) : is_ascii (int_str n) = true.
Proof.
  unfold int_str, NilZero.string_of_int.
  destruct (Z.to_int n) as [d|d].
  - apply string_of_uint0_ascii.
  - rewrite lit_cons_ascii. apply string_of_uint0_ascii.
Qed.

(** *** [strip] trims and [split] counts words *)

Lemma dropwhile_decompose (p : char -> bool) (s : str) :
  exists pre, s = pre ++ dropwhile p s /\ forallb p pre = true.
Proof.
  induction s as [|c s (pre & Heq & Hpre)]; simpl.
  - now exists [].
  - destruct (p c) eqn:E.
    + exists (c :: pre). simpl. rewrite E. split; [now f_equal|exact Hpre].
    + now exists [].
Qed.

Lemma dropwhile_head (p : char -> bool) (s : str) (c : char) (r : str) :
  dropwhile p s = c :: r -> p c = false.
Proof.
  induction s as [|c' s IH]; simpl; [discriminate|].
  destruct (p c') eqn:E; [exact IH|]. intro H. now injection H as -> _.
Qed.

Lemma forallb_rev {A} (p : A -> bool) (l : list A) :
  forallb p (rev l) = forallb p l.
Proof.
  induction l as [|a l IH]; simpl; [reflexivity|].
  rewrite forallb_app, IH. simpl. rewrite andb_true_r. apply andb_comm.
Qed.

Lemma rstrip_decompose (s : str) :
  exists post, s = rstrip s ++ post /\ forallb isspace post = true.
Proof.
  unfold rstrip. destruct (dropwhile_decompose isspace (rev s)) as (pre & Heq & Hpre).
  exists (rev pre). split.
  - rewrite <- rev_app_distr, <- Heq. now rewrite rev_involutive.
  - now rewrite forallb_rev.
Qed.

(** [strip] removes a run of whitespace at each end and nothing else. *)
Lemma strip_decompose (s : str) :
  exists pre post,
    s = pre ++ strip s ++ post
    /\ forallb isspace pre = true /\ forallb isspace post = true.
Proof.
  destruct (dropwhile_decompose isspace s) as (pre & Heq & Hpre).
  destruct (rstrip_decompose (lstrip s)) as (post & Heq' & Hpost).
  exists pre, post. unfold strip. fold (lstrip s) in Heq.
  now rewrite <- Heq', <- Heq.
Qed.

(** What [strip] leaves neither starts nor ends with whitespace. *)
Lemma strip_first (s : str) (c : char) (r : str) :
  strip s = c :: r -> isspace c = false.
Proof.
  intro H. destruct (rstrip_decompose (lstrip s)) as (post & Heq & _).
  fold (strip s) in Heq. rewrite H in Heq.
  exact (dropwhile_head isspace s c (r ++ post) Heq).
Qed.

Lemma strip_last (s : str) (c : char) (r : str) :
  strip s = r ++ [c] -> isspace c = false.
Proof.
  unfold strip, rstrip. intro H.
  apply (f_equal (@rev char)) in H. rewrite rev_involutive, rev_app_distr in H.
  exact (dropwhile_head isspace _ c _ H).
Qed.

Lemma split_from_words (s : str) (cur : option str) :
  match cur with Some w => is_word w = true | None => True end ->
  forallb is_word (split_from cur s) = true.
Proof.
  revert cur. induction s as [|c s IH]; intros cur Hcur; simpl.
  - destruct cur; simpl; [now rewrite Hcur|reflexivity].
  - destruct (isspace c) eqn:E.
    + destruct cur; simpl; [rewrite Hcur|]; now apply IH.
    + apply IH. destruct cur as [w|]; unfold is_word in *; simpl.
      * apply andb_true_iff in Hcur as [_ Hw].
        rewrite forallb_app, Hw. simpl. rewrite E. simpl.
        apply andb_true_iff. split; [|reflexivity].
        apply negb_true_iff, str_eqb_neq. now destruct w.
      * now rewrite E.
Qed.

(** Every item of [split] is a word: not empty and free of whitespace. *)
Lemma split_words (s : str) : forallb is_word (split s) = true.
Proof. now apply split_from_words. Qed.

Lemma split_from_word (w cur : str) :
  forallb (fun c => negb (isspace c)) w = true ->
  split_from (Some cur) w = [cur ++ w].
Proof.
  revert cur. induction w as [|c w IH]; intros cur H; simpl.
  - now rewrite app_nil_r.
  - simpl in H. apply andb_true_iff in H as [Hc Hw].
    apply negb_true_iff in Hc. rewrite Hc, (IH _ Hw), <- app_assoc. reflexivity.
Qed.

(** A single word is counted as one. *)
Lemma split_word (w : str) : is_word w = true -> split w = [w].
Proof.
  unfold is_word, split. intro H. apply andb_true_iff in H as [Hne Hw].
  destruct w as [|c w]; [discriminate|].
  simpl in *. apply andb_true_iff in Hw as [Hc Hw].
  apply negb_true_iff in Hc. rewrite Hc. now apply (split_from_word w [c]).
Qed.

Lemma dict_get_app (key : str) (d1 d2 : dict) :
  dict_get key (d1 ++ d2)
  = match dict_get key d1 with Some v => Some v | None => dict_get key d2 end.
Proof.
  induction d1 as [|[k v] d1 IH]; simpl; [reflexivity|].
  destruct (str_eqb key k); [reflexivity|apply IH].
Qed.

Lemma dict_get_del_same (key : str) (d : dict) : dict_get key (dict_del key d) = None.
Proof.
  induction d as [|[k v] d IH]; simpl; [reflexivity|].
  destruct (str_eqb key k) eqn:E; simpl; [apply IH|].
  rewrite E. apply IH.
Qed.

Lemma dict_get_del_other (key k' : str) (d : dict) :
  k' <> key -> dict_get k' (dict_del key d) = dict_get k' d.
Proof.
  intro Hne. induction d as [|[k v] d IH]; simpl; [reflexivity|].
  destruct (str_eqb key k) eqn:E; simpl.
  - apply str_eqb_eq in E. subst k.
    destruct (str_eqb k' key) eqn:E'; [apply str_eqb_eq in E'; contradiction|apply IH].
  - destruct (str_eqb k' k); [reflexivity|apply IH].
Qed.

(** ** Laws of the effect monad *)

Lemma bind_ret_l {A B} (a : A) (k : A -> M B) : bind (ret a) k = k a.
Proof. unfold bind, ret. destruct (k a). reflexivity. Qed.

Lemma bind_raise {A B} (e : exception) (k : A -> M B) : bind (raise e) k = raise e.
Proof. reflexivity. Qed.

(** ** The prompt *)

Section Prompt.
Context {X : Externals}.

Lemma for_msg_in_messages (msgs prompt_parts : list value) :
  forallb is_message msgs = true ->
  for_msg_in msgs prompt_parts
  = ret (prompt_parts ++ map (fun msg => VStr (content_text msg)) msgs).
Proof.
  revert prompt_parts.
  induction msgs as [|msg msgs IH]; intros parts H; simpl.
  - now rewrite app_nil_r.
  - apply andb_true_iff in H as [Hm Hs].
    destruct msg as [| | | | |l|m]; try discriminate Hm.
    simpl in *.
    rewrite (IH _ Hs), <- app_assoc. simpl.
    unfold dict_get_default.
    destruct (dict_get (lit "content") m) as [[| | | | | |]|];
      try discriminate Hm; reflexivity.
Qed.

Lemma str_join_from_texts (i : Z) (sep : str) (ss : list str) :
  str_join_from i sep (map VStr ss) = ret ss.
Proof.
  revert i. induction ss as [|s ss IH]; intro i; simpl; [reflexivity|].
  now rewrite IH.
Qed.

Lemma str_join_texts (sep : str) (ss : list str) :
  str_join sep (map VStr ss) = ret (join_str sep ss).
Proof. unfold str_join. now rewrite str_join_from_texts. Qed.

Lemma parts_texts (parts : list str) (msgs : list value) :
  map VStr parts ++ map (fun msg => VStr (content_text msg)) msgs
  = map VStr (parts ++ map content_text msgs).
Proof. now rewrite map_app, map_map. Qed.

(** On a ChatRequest the code builds [chat_prompt] and raises nothing. *)
Lemma full_prompt_chat_request (data : value) :
  is_chat_request data = true -> full_prompt data = ret (chat_prompt data).
Proof.
  destruct data as [| | | | | |d]; try discriminate.
  unfold is_chat_request, full_prompt, chat_prompt, chat_system, chat_contents,
    dict_get_default.
  intro H. apply andb_true_iff in H as [Hsys Hmsg].
  cbn [get_method]. rewrite !bind_ret_l.
  assert (Hloop : forall parts msgs, forallb is_message msgs = true ->
            (prompt_parts <- for_msg_in msgs (map VStr parts) ;;
             str_join [nl] prompt_parts)
            = ret (join_str [nl] (parts ++ map content_text msgs))).
  { intros parts msgs Hm.
    now rewrite (for_msg_in_messages _ _ Hm), bind_ret_l, parts_texts, str_join_texts. }
  destruct (dict_get (lit "system") d) as [[| | | |s| |]|]; try discriminate Hsys;
    destruct (dict_get (lit "messages") d) as [[| | | | |msgs|]|];
    try discriminate Hmsg; cbn [truthy format_value iterate];
    rewrite bind_ret_l; try (destruct (str_eqb s []); cbn [negb]).
  - apply (Hloop [] msgs Hmsg).
  - apply (Hloop [s ++ [nl]] msgs Hmsg).
  - apply (Hloop [] [] eq_refl).
  - apply (Hloop [s ++ [nl]] [] eq_refl).
  - apply (Hloop [] msgs Hmsg).
  - apply (Hloop [] [] eq_refl).
Qed.
End Prompt.

Section Responses.
Context {X : Externals}.

Lemma send_json_trace (code : Z) (payload : value) :
  is_ascii (json_dumps payload) = true ->
  send_json code payload = (json_response code payload, inr tt).
Proof.
  intro H. unfold send_json, encode. rewrite (utf8_ascii _ H). reflexivity.
Qed.

Lemma error_payload_ascii (message : str) :
  is_ascii (json_dumps (error_payload message)) = true.
Proof.
  unfold error_payload. cbn [json_dumps].
  rewrite !is_ascii_app, !encode_basestring_ascii_is_ascii. reflexivity.
Qed.

Lemma response_payload_ascii (response_text prompt : str) :
  is_ascii (json_dumps (response_payload response_text prompt)) = true.
Proof.
  unfold response_payload. cbn [json_dumps].
  rewrite !is_ascii_app, !encode_basestring_ascii_is_ascii, !int_str_ascii.
  reflexivity.
Qed.

Lemma send_error_json (code : Z) (message : str) :
  send_json code (error_payload message)
  = (json_response code (error_payload message), inr tt).
Proof. apply send_json_trace, error_payload_ascii. Qed.

Lemma prints_ascii (text : str) : is_ascii text = true -> prints text = true.
Proof.
  unfold is_ascii, prints. induction text as [|c text IH]; simpl; [reflexivity|].
  intro H. apply andb_true_iff in H as [Hc Ht]. now rewrite Hc, IH.
Qed.

Lemma prints_app (a b : str) : prints (a ++ b) = prints a && prints b.
Proof. apply forallb_app. Qed.

Lemma prints_firstn (n : nat) (text : str) :
  prints text = true -> prints (firstn n text) = true.
Proof.
  unfold prints. revert n. induction text as [|c text IH]; intros [|n] H; simpl;
    try reflexivity.
  simpl in H. apply andb_true_iff in H as [Hc Ht]. now rewrite Hc, IH.
Qed.

(** A text that prints still prints when it is cut for the log. *)
Lemma prints_truncated (text : str) :
  prints text = true -> prints (truncated text) = true.
Proof.
  intro H. unfold truncated, prefix. destruct (Z.ltb 500 (len text)); [|exact H].
  now rewrite prints_app, prints_firstn.
Qed.

Lemma print_ascii (text : str) :
  is_ascii text = true -> print text = emit (PrintLine text).
Proof. intro H. unfold print. now rewrite (prints_ascii _ H). Qed.

Lemma print_ok (text : str) : prints text = true -> print text = emit (PrintLine text).
Proof. intro H. unfold print. now rewrite H. Qed.

Lemma print_fails (text : str) :
  prints text = false ->
  print text = raise (Exc UnicodeEncodeError (stdout_error text)).
Proof. intro H. unfold print. now rewrite H. Qed.

(** The trace of [handle_chat] when the prompt is built and its line
    prints: the prompt is logged, the command is run once, and [reply]
    follows. Nothing is raised. *)
Lemma handle_chat_trace (data : value) (prompt : str) :
  full_prompt data = ret prompt ->
  prints (truncated prompt) = true ->
  let argv := [lit "claude"; lit "-p"; prompt] in
  handle_chat data
  = (prompt_log prompt ++ Run argv 120 :: reply prompt (subprocess_run argv 120),
     inr tt).
Proof.
  intros H Hprints argv. unfold handle_chat.
  rewrite H, bind_ret_l.
  rewrite (print_ascii ([nl] ++ repeat_char 61 50)) by reflexivity.
  rewrite (print_ascii (lit "PROMPT:")) by reflexivity.
  rewrite (print_ascii (repeat_char 61 50)) by reflexivity.
  rewrite (print_ascii ([nl] ++ lit "RESPONSE:")) by reflexivity.
  rewrite (print_ascii (repeat_char 61 50 ++ [nl])) by reflexivity.
  rewrite (print_ok _ Hprints).
  fold argv. unfold run, reply.
  destruct (subprocess_run argv 120) as [e|result].
  - cbn [call emit bind try_except app].
    destruct (exc_type e); rewrite send_error_json; reflexivity.
  - cbn [call emit bind try_except app].
    destruct (Z.eqb (returncode result) 0); cbn [negb].
    + destruct (prints (truncated (strip (stdout result)))) eqn:Htext.
      * rewrite (print_ok _ Htext).
        rewrite (send_json_trace _ _ (response_payload_ascii _ _)). reflexivity.
      * rewrite (print_fails _ Htext).
        cbn [emit raise bind try_except exc_type exc_str app].
        rewrite send_error_json. reflexivity.
    + rewrite send_error_json. reflexivity.
Qed.

(** When the line of the prompt does not print, [handle_chat] raises
    after its first two lines: the command is not run and nothing is
    sent. *)
Lemma handle_chat_unprintable (data : value) (prompt : str) :
  full_prompt data = ret prompt ->
  prints (truncated prompt) = false ->
  handle_chat data
  = ([PrintLine ([nl] ++ repeat_char 61 50); PrintLine (lit "PROMPT:")],
     inl (Exc UnicodeEncodeError (stdout_error (truncated prompt)))).
Proof.
  intros H Hprints. unfold handle_chat.
  rewrite H, bind_ret_l.
  rewrite (print_ascii ([nl] ++ repeat_char 61 50)) by reflexivity.
  rewrite (print_ascii (lit "PROMPT:")) by reflexivity.
  rewrite (print_fails _ Hprints). reflexivity.
Qed.

Lemma handle_chat_ext (data data' : value) :
  full_prompt data = full_prompt data' -> handle_chat data = handle_chat data'.
Proof. intro H. unfold handle_chat. now rewrite H. Qed.

(** Reading the trace of a chat. *)
Lemma runs_reply (prompt : str) (r : exception + CompletedProcess) :
  runs (reply prompt r) = [].
Proof.
  destruct r as [e|result]; simpl.
  - destruct (exc_type e); reflexivity.
  - destruct (Z.eqb (returncode result) 0); [|reflexivity].
    destruct (prints (truncated (strip (stdout result)))); reflexivity.
Qed.

Lemma runs_chat (prompt : str) (argv : list str) (t : Z)
      (r : exception + CompletedProcess) :
  runs (prompt_log prompt ++ Run argv t :: reply prompt r) = [(argv, t)].
Proof. cbn [prompt_log app runs]. now rewrite runs_reply. Qed.

Lemma statuses_chat (prompt : str) (argv : list str) (t : Z)
      (r : exception + CompletedProcess) :
  statuses (prompt_log prompt ++ Run argv t :: reply prompt r)
  = statuses (reply prompt r).
Proof. reflexivity. Qed.

Lemma body_chat (prompt : str) (argv : list str) (t : Z)
      (r : exception + CompletedProcess) :
  body_of (prompt_log prompt ++ Run argv t :: reply prompt r)
  = body_of (reply prompt r).
Proof. reflexivity. Qed.

Lemma statuses_json_response (code : Z) (payload : value) :
  statuses (json_response code payload) = [code].
Proof. reflexivity. Qed.

Lemma body_json_response (code : Z) (payload : value) :
  body_of (json_response code payload) = ascii_bytes (json_dumps payload).
Proof. cbn [json_response body_of]. apply app_nil_r. Qed.

Lemma handle_POST (self : Request) :
  command self = lit "POST" -> handle_one_request self = do_POST self.
Proof. intro H. unfold handle_one_request. now rewrite H. Qed.

Lemma handle_GET (self : Request) :
  command self = lit "GET" -> handle_one_request self = do_GET self.
Proof. intro H. unfold handle_one_request. now rewrite H. Qed.

Lemma do_POST_parsed (self : Request) (data : value) :
  path self = lit "/v1/messages" -> parses_as self data ->
  do_POST self = handle_chat data.
Proof.
  intros Hp (body & Hr & Hl). unfold do_POST.
  rewrite Hp, str_eqb_refl, Hr. cbn [negb call bind]. rewrite Hl.
  cbn [call bind try_except ret app]. destruct (handle_chat data). reflexivity.
Qed.

Lemma handle_chat_request (self : Request) (data : value) :
  posts_messages self -> parses_as self data ->
  handle_one_request self = handle_chat data.
Proof.
  intros [Hc Hp] H. rewrite (handle_POST _ Hc). now apply do_POST_parsed.
Qed.

(** A ChatRequest posted to the messages route, whose prompt prints:
    the whole trace. *)
Lemma handle_chat_request_trace (self : Request) (data : value) :
  posts_messages self -> parses_as self data -> is_chat_request data = true ->
  prints (truncated (chat_prompt data)) = true ->
  let argv := [lit "claude"; lit "-p"; chat_prompt data] in
  handle_one_request self
  = (prompt_log (chat_prompt data)
     ++ Run argv 120 :: reply (chat_prompt data) (subprocess_run argv 120),
     inr tt).
Proof.
  intros Hpost Hparse Hchat Hprints. rewrite (handle_chat_request _ _ Hpost Hparse).
  apply handle_chat_trace; [now apply full_prompt_chat_request|exact Hprints].
Qed.
End Responses.

(** ** The error page of [send_error] *)

Lemma error_page_head (code : Z) (message explain : str) :
  exists rest,
    utf8_replace (error_message_format code message explain) = Byte.x3c :: rest.
Proof.
  unfold error_message_format.
  cbn [join_str].
  change (lit "<!DOCTYPE HTML>") with (60 :: lit "!DOCTYPE HTML>").
  cbn [app utf8_replace flat_map]. 
  change (utf8_char 60) with (Some [Byte.x3c]). cbn [app].
  eexists. reflexivity.
Qed.

Lemma send_error_trace (self : Request) (code : Z) (message : str) :
  (Z.leb 200 code && negb (Z.eqb code 204 || Z.eqb code 205 || Z.eqb code 304))%bool = true ->
  str_eqb (command self) (lit "HEAD") = false ->
  let explain :=
    match responses code with Some (_, longmsg) => longmsg | None => lit "???" end in
  let body :=
    utf8_replace
      (error_message_format code (html_escape message) (html_escape explain)) in
  send_error self code message
  = ([ SendResponse code (Some message);
       SendHeader (lit "Connection") (lit "close");
       SendHeader (lit "Content-Type") error_content_type;
       SendHeader (lit "Content-Length") (int_str (len body));
       EndHeaders;
       WriteBody body ], inr tt).
Proof.
  intros Hcode Hhead explain body. unfold send_error. fold explain.
  rewrite Hcode, Hhead. fold body.
  destruct (error_page_head code (html_escape message) (html_escape explain))
    as (rest & Hbody).
  fold body in Hbody. rewrite Hbody. reflexivity.
Qed.

(** * The claims *)

Section Claims.
Context {X : Externals}.

Lemma chat_prompt_no_system (data : value) :
  chat_system data = [] -> chat_prompt data = join_str [nl] (chat_contents data).
Proof. intro H. unfold chat_prompt. now rewrite H. Qed.

Lemma runs_chat_request (self : Request) (data : value) :
  posts_messages self -> parses_as self data -> is_chat_request data = true ->
  prints (truncated (chat_prompt data)) = true ->
  runs (trace (handle_one_request self)) = [claude_call (chat_prompt data)].
Proof.
  intros Hpost Hparse Hchat Hprints.
  rewrite (handle_chat_request_trace _ _ Hpost Hparse Hchat Hprints).
  apply runs_chat.
Qed.

(** C1: a POST to /v1/messages whose body parses as a request with
    system "S" and messages [{content: "A"}, {content: "B"}] hands the
    external command exactly the prompt "S\n\nA\nB": the system text, a
    blank line, then each content on its own line, in input order. *)
Theorem C1_prompt_of_system_and_two_messages (self : Request) (d m1 m2 : dict) :
  posts_messages self ->
  parses_as self (VDict d) ->
  dict_get (lit "system") d = Some (VStr (lit "S")) ->
  dict_get (lit "messages") d = Some (VList [VDict m1; VDict m2]) ->
  dict_get (lit "content") m1 = Some (VStr (lit "A")) ->
  dict_get (lit "content") m2 = Some (VStr (lit "B")) ->
  runs (trace (handle_one_request self))
  = [([lit "claude"; lit "-p"; lit "S" ++ [nl; nl] ++ lit "A" ++ [nl] ++ lit "B"],
      120%Z)].
Proof.
  intros Hpost Hparse Hsys Hmsgs H1 H2.
  assert (Hchat : is_chat_request (VDict d) = true).
  { unfold is_chat_request. rewrite Hsys, Hmsgs. simpl. now rewrite H1, H2. }
  assert (Hprompt : chat_prompt (VDict d)
                    = lit "S" ++ [nl; nl] ++ lit "A" ++ [nl] ++ lit "B").
  { unfold chat_prompt, chat_system, chat_contents.
    rewrite Hsys, Hmsgs. simpl. now rewrite H1, H2. }
  rewrite (runs_chat_request _ _ Hpost Hparse Hchat).
  - unfold claude_call. now rewrite Hprompt.
  - rewrite Hprompt. apply prints_ascii. reflexivity.
Qed.


Lemma handle_invalid_json (self : Request) (body : bytes) (e : exception) :
  posts_messages self ->
  rfile_read self = inr body ->
  json_loads body = inl e ->
  exc_type e = JSONDecodeError ->
  handle_one_request self
  = send_error self 400 (lit "Invalid JSON: " ++ exc_str e).
Proof.
  intros [Hc Hp] Hread Hloads Hclass.
  rewrite (handle_POST _ Hc). unfold do_POST.
  rewrite Hp, str_eqb_refl, Hread. cbn [negb call bind]. rewrite Hloads.
  cbn [call bind try_except ret app]. rewrite Hclass.
  destruct (send_error self 400 (lit "Invalid JSON: " ++ exc_str e)) as [t [x|[]]];
    cbn [bind ret]; now rewrite ?app_nil_r.
Qed.

(** C3 (the code departs from the claim): a POST to /v1/messages whose
    body [json.loads] rejects is answered through [send_error]: status
    400 and the HTML error page, content type text/html, whose message
    line carries "Invalid JSON: " and the parse error. The body is not
    the JSON text of any object of the shape {"error": {"message": m}}. *)
Theorem C3_invalid_json_reply_is_html (self : Request) (body : bytes) (e : exception) :
  posts_messages self ->
  rfile_read self = inr body ->
  json_loads body = inl e ->
  exc_type e = JSONDecodeError ->
  let r := handle_one_request self in
  statuses (trace r) = [400%Z]
  /\ In (lit "Content-Type", lit "text/html;charset=utf-8") (headers_of (trace r))
  /\ body_of (trace r)
     = utf8_replace
         (error_message_format 400
            (html_escape (lit "Invalid JSON: " ++ exc_str e))
            (lit "Bad request syntax or unsupported method"))
  /\ forall message : str,
       body_of (trace r)
       <> ascii_bytes
            (json_dumps (VDict [(lit "error", VDict [(lit "message", VStr message)])])).
Proof.
  intros Hpost Hread Hloads Hclass r. subst r.
  rewrite (handle_invalid_json _ _ _ Hpost Hread Hloads Hclass).
  destruct Hpost as [Hc _].
  rewrite send_error_trace; [|reflexivity|now rewrite Hc].
  unfold trace. cbn [fst statuses headers_of body_of responses Z.eqb].
  rewrite app_nil_r. repeat split.
  - right. left. reflexivity.
  - intros message Heq.
    match type of Heq with
    | utf8_replace (error_message_format ?c ?m ?x) = _ =>
        destruct (error_page_head c m x) as (rest & Hhead)
    end.
    rewrite Hhead in Heq. discriminate Heq.
Qed.

(** C4: when the command of a well-formed POST to /v1/messages, one
    whose prompt line the handler can print before the run (line 59),
    ends with a non-zero status, the response is a 500 whose error
    message is "Claude CLI error: " followed by the command's standard
    error. *)
Theorem C4_nonzero_exit_is_500 (self : Request) (data : value)
        (result : CompletedProcess) :
  posts_messages self ->
  parses_as self data ->
  is_chat_request data = true ->
  prints (truncated (chat_prompt data)) = true ->
  subprocess_run [lit "claude"; lit "-p"; chat_prompt data] 120 = inr result ->
  returncode result <> 0%Z ->
  let r := handle_one_request self in
  statuses (trace r) = [500%Z]
  /\ exists message before,
       message = before ++ stderr result
       /\ body_of (trace r)
          = ascii_bytes
              (json_dumps (VDict [(lit "error", VDict [(lit "message", VStr message)])])).
Proof.
  intros Hpost Hparse Hchat Hprints Hrun Hcode r. subst r.
  rewrite (handle_chat_request_trace _ _ Hpost Hparse Hchat Hprints), Hrun.
  unfold trace. cbn [fst].
  rewrite statuses_chat, body_chat. unfold reply.
  apply Z.eqb_neq in Hcode. rewrite Hcode.
  rewrite statuses_json_response, body_json_response.
  split; [reflexivity|].
  exists (lit "Claude CLI error: " ++ stderr result), (lit "Claude CLI error: ").
  split; reflexivity.
Qed.


(** C6 (amended): every GET request whose request target is exactly
    /health is answered with status 200 and the body {"status": "ok"},
    whatever the body of the request and the run-time. *)
Theorem C6_health_is_ok (self : Request) :
  command self = lit "GET" ->
  path self = lit "/health" ->
  let r := handle_one_request self in
  statuses (trace r) = [200%Z]
  /\ body_of (trace r)
     = ascii_bytes (lit "{" ++ [dquote] ++ lit "status" ++ [dquote] ++ lit ": "
                    ++ [dquote] ++ lit "ok" ++ [dquote] ++ lit "}")
  /\ outcome r = inr tt.
Proof.
  intros Hc Hp r. subst r. rewrite (handle_GET _ Hc). unfold do_GET.
  rewrite Hp, str_eqb_refl. repeat split.
Qed.

(** C7 (amended): every GET request that reaches [do_GET] with a
    [self.path] other than /health, and every POST request that reaches
    [do_POST] with a [self.path] other than /v1/messages, is answered
    with status 404 and no body. *)
Theorem C7_other_paths_are_404 (self : Request) :
  (command self = lit "GET" /\ path self <> lit "/health")
  \/ (command self = lit "POST" /\ path self <> lit "/v1/messages") ->
  let r := handle_one_request self in
  statuses (trace r) = [404%Z] /\ body_of (trace r) = [] /\ outcome r = inr tt.
Proof.
  intros [[Hc Hp]|[Hc Hp]] r; subst r.
  - rewrite (handle_GET _ Hc). unfold do_GET.
    apply str_eqb_neq in Hp. rewrite Hp. repeat split.
  - rewrite (handle_POST _ Hc). unfold do_POST.
    apply str_eqb_neq in Hp. rewrite Hp. repeat split.
Qed.

(** C8: a well-formed POST to /v1/messages whose body has no system
    key builds as its prompt the content texts joined by newlines and
    nothing else, no system line and no leading blank line; and, when
    the handler can print the line of that prompt (line 59), this is
    the prompt the command is run with. *)
Theorem C8_prompt_without_system (self : Request) (d : dict) :
  posts_messages self ->
  parses_as self (VDict d) ->
  is_chat_request (VDict d) = true ->
  dict_get (lit "system") d = None ->
  full_prompt (VDict d) = ret (join_str [nl] (chat_contents (VDict d)))
  /\ (prints (truncated (join_str [nl] (chat_contents (VDict d)))) = true ->
      runs (trace (handle_one_request self))
      = [([lit "claude"; lit "-p"; join_str [nl] (chat_contents (VDict d))], 120%Z)]).
Proof.
  intros Hpost Hparse Hchat Hsys.
  assert (Hprompt : chat_prompt (VDict d) = join_str [nl] (chat_contents (VDict d))).
  { apply chat_prompt_no_system. unfold chat_system. now rewrite Hsys. }
  split.
  - now rewrite (full_prompt_chat_request _ Hchat), Hprompt.
  - intro Hprints. rewrite <- Hprompt in Hprints.
    rewrite (runs_chat_request _ _ Hpost Hparse Hchat Hprints).
    unfold claude_call. now rewrite Hprompt.
Qed.

Lemma full_prompt_add_messages (d : dict) :
  dict_get (lit "messages") d = None ->
  full_prompt (VDict (dict_add (lit "messages") (VList []) d)) = full_prompt (VDict d).
Proof.
  intro H. unfold full_prompt, dict_add, dict_get_default. cbn [get_method].
  rewrite !bind_ret_l, !dict_get_app, H. cbn [dict_get].
  change (str_eqb (lit "messages") (lit "messages")) with true.
  change (str_eqb (lit "system") (lit "messages")) with false.
  cbv iota. now destruct (dict_get (lit "system") d).
Qed.

Lemma full_prompt_no_messages (d : dict) :
  dict_get (lit "messages") d = None ->
  let system := dict_get_default (lit "system") (VStr []) d in
  full_prompt (VDict d)
  = ret (if truthy system then format_value system ++ [nl] else []).
Proof.
  intros H system. unfold full_prompt, dict_get_default. cbn [get_method].
  rewrite !bind_ret_l, H. cbn [iterate]. rewrite bind_ret_l.
  fold (dict_get_default (lit "system") (VStr []) d). fold system.
  cbn [for_msg_in]. rewrite bind_ret_l.
  destruct (truthy system); reflexivity.
Qed.

(** C9 (amended): a POST to /v1/messages whose body is a JSON object
    without the messages key is handled exactly as the same object with
    messages set to the empty sequence: the prompt is built, nothing is
    raised for the missing key, and, when the handler can print the
    line of the prompt (line 59), the command is run and the handler
    returns. *)
Theorem C9_missing_messages_is_empty (self self' : Request) (d : dict) :
  posts_messages self ->
  parses_as self (VDict d) ->
  dict_get (lit "messages") d = None ->
  posts_messages self' ->
  parses_as self' (VDict (dict_add (lit "messages") (VList []) d)) ->
  handle_one_request self = handle_one_request self'
  /\ exists prompt,
       full_prompt (VDict d) = ret prompt
       /\ (prints (truncated prompt) = true ->
           outcome (handle_one_request self) = inr tt
           /\ runs (trace (handle_one_request self)) = [claude_call prompt]).
Proof.
  intros Hpost Hparse Hnone Hpost' Hparse'.
  rewrite (handle_chat_request _ _ Hpost Hparse).
  rewrite (handle_chat_request _ _ Hpost' Hparse').
  split.
  - apply handle_chat_ext. symmetry. now apply full_prompt_add_messages.
  - eexists. split; [exact (full_prompt_no_messages d Hnone)|].
    intro Hprints.
    rewrite (handle_chat_trace _ _ (full_prompt_no_messages d Hnone) Hprints).
    split; [reflexivity|apply runs_chat].
Qed.

Lemma full_prompt_del_empty_system (d : dict) :
  dict_get (lit "system") d = Some (VStr []) ->
  full_prompt (VDict (dict_del (lit "system") d)) = full_prompt (VDict d).
Proof.
  intro H. unfold full_prompt, dict_get_default. cbn [get_method].
  rewrite !bind_ret_l, H, dict_get_del_same.
  rewrite dict_get_del_other by discriminate. reflexivity.
Qed.

(** C10: a well-formed POST to /v1/messages whose system is the empty
    text builds the same prompt, and is handled in the same way, as the
    same request without the system key: the prompt is the content
    texts joined by newlines, without a system line and its blank
    line. *)
Theorem C10_empty_system_as_absent (self self' : Request) (d : dict) :
  posts_messages self ->
  parses_as self (VDict d) ->
  is_chat_request (VDict d) = true ->
  dict_get (lit "system") d = Some (VStr []) ->
  posts_messages self' ->
  parses_as self' (VDict (dict_del (lit "system") d)) ->
  full_prompt (VDict d) = full_prompt (VDict (dict_del (lit "system") d))
  /\ handle_one_request self = handle_one_request self'
  /\ full_prompt (VDict d) = ret (join_str [nl] (chat_contents (VDict d))).
Proof.
  intros Hpost Hparse Hchat Hsys Hpost' Hparse'.
  split; [|split].
  - symmetry. now apply full_prompt_del_empty_system.
  - rewrite (handle_chat_request _ _ Hpost Hparse).
    rewrite (handle_chat_request _ _ Hpost' Hparse').
    apply handle_chat_ext. symmetry. now apply full_prompt_del_empty_system.
  - rewrite (full_prompt_chat_request _ Hchat).
    rewrite chat_prompt_no_system; [reflexivity|].
    unfold chat_system. now rewrite Hsys.
Qed.

End Claims.

(** ** The claims on concrete requests *)

Lemma C1_witness :
  runs (trace (handle_one_request (X := Sample.runtime Sample.says_hello)
                 (Sample.post Sample.body_S_A_B)))
  = [([lit "claude"; lit "-p"; lit "S" ++ [nl; nl] ++ lit "A" ++ [nl] ++ lit "B"],
      120%Z)].
Proof.
  apply (C1_prompt_of_system_and_two_messages (X := Sample.runtime Sample.says_hello)
           (Sample.post Sample.body_S_A_B)
           [(lit "system", VStr (lit "S")); (lit "messages", Sample.messages_A_B)]
           [(lit "content", VStr (lit "A"))] [(lit "content", VStr (lit "B"))]).
  - split; reflexivity.
  - exists Sample.body_S_A_B. split; vm_compute; reflexivity.
  - reflexivity.
  - reflexivity.
  - reflexivity.
  - reflexivity.
Defined.


Lemma C3_witness :
  statuses (trace (handle_one_request (X := Sample.runtime Sample.says_hello)
                     (Sample.post Sample.body_malformed))) = [400%Z]
  /\ forall message : str,
       body_of (trace (handle_one_request (X := Sample.runtime Sample.says_hello)
                         (Sample.post Sample.body_malformed)))
       <> ascii_bytes
            (json_dumps (X := Sample.runtime Sample.says_hello)
               (VDict [(lit "error", VDict [(lit "message", VStr message)])])).
Proof.
  destruct (C3_invalid_json_reply_is_html (X := Sample.runtime Sample.says_hello)
              (Sample.post Sample.body_malformed) Sample.body_malformed
              (Exc JSONDecodeError
                 (lit "Expecting property name enclosed in double quotes: line 1 column 2 (char 1)")))
    as (Hstatus & _ & _ & Hbody).
  - split; reflexivity.
  - reflexivity.
  - vm_compute; reflexivity.
  - reflexivity.
  - split; [exact Hstatus|exact Hbody].
Defined.

Lemma C4_witness :
  statuses (trace (handle_one_request (X := Sample.runtime Sample.fails)
                     (Sample.post Sample.body_S_A_B))) = [500%Z]
  /\ exists message before,
       message = before ++ lit "boom"
       /\ body_of (trace (handle_one_request (X := Sample.runtime Sample.fails)
                            (Sample.post Sample.body_S_A_B)))
          = ascii_bytes
              (json_dumps (X := Sample.runtime Sample.fails)
                 (VDict [(lit "error", VDict [(lit "message", VStr message)])])).
Proof.
  apply (C4_nonzero_exit_is_500 (X := Sample.runtime Sample.fails)
           (Sample.post Sample.body_S_A_B) Sample.data_S_A_B
           {| returncode := 1; stdout := []; stderr := lit "boom" |}).
  - split; reflexivity.
  - exists Sample.body_S_A_B. split; vm_compute; reflexivity.
  - reflexivity.
  - reflexivity.
  - reflexivity.
  - simpl. lia.
Defined.


Lemma C6_witness :
  statuses (trace (handle_one_request (X := Sample.runtime Sample.says_hello)
                     (Sample.request "GET" "/health"))) = [200%Z]
  /\ body_of (trace (handle_one_request (X := Sample.runtime Sample.says_hello)
                       (Sample.request "GET" "/health")))
     = ascii_bytes (lit "{" ++ [dquote] ++ lit "status" ++ [dquote] ++ lit ": "
                    ++ [dquote] ++ lit "ok" ++ [dquote] ++ lit "}")
  /\ outcome (handle_one_request (X := Sample.runtime Sample.says_hello)
                (Sample.request "GET" "/health")) = inr tt.
Proof.
  apply (C6_health_is_ok (X := Sample.runtime Sample.says_hello)
           (Sample.request "GET" "/health")); reflexivity.
Defined.

(** C6, as stated, fails: a GET of /health with a query string is a
    request to /health, and is answered with 404 and no body. *)
Lemma C6_health_with_query_is_404 :
  command Sample.health_probe = lit "GET"
  /\ url_path (path Sample.health_probe) = lit "/health"
  /\ statuses (trace (handle_one_request (X := Sample.runtime Sample.says_hello)
                        Sample.health_probe)) = [404%Z]
  /\ body_of (trace (handle_one_request (X := Sample.runtime Sample.says_hello)
                       Sample.health_probe)) = []
  /\ statuses (trace (handle_one_request (X := Sample.runtime Sample.says_hello)
                        Sample.health_probe)) <> [200%Z].
Proof.
  repeat split; try reflexivity. vm_compute. discriminate.
Qed.

Lemma C7_witness :
  statuses (trace (handle_one_request (X := Sample.runtime Sample.says_hello)
                     (Sample.request "GET" "/v1/messages"))) = [404%Z]
  /\ body_of (trace (handle_one_request (X := Sample.runtime Sample.says_hello)
                       (Sample.request "GET" "/v1/messages"))) = []
  /\ outcome (handle_one_request (X := Sample.runtime Sample.says_hello)
                (Sample.request "GET" "/v1/messages")) = inr tt.
Proof.
  apply (C7_other_paths_are_404 (X := Sample.runtime Sample.says_hello)
           (Sample.request "GET" "/v1/messages")).
  left. split; [reflexivity|]. vm_compute. discriminate.
Defined.

(** C7, as stated, fails: a PUT matches neither route and is answered
    by the base handler with 501 and its HTML error page. *)
Lemma C7_put_is_501 :
  command Sample.put_messages <> lit "GET"
  /\ command Sample.put_messages <> lit "POST"
  /\ statuses (trace (handle_one_request (X := Sample.runtime Sample.says_hello)
                        Sample.put_messages)) = [501%Z]
  /\ statuses (trace (handle_one_request (X := Sample.runtime Sample.says_hello)
                        Sample.put_messages)) <> [404%Z]
  /\ body_of (trace (handle_one_request (X := Sample.runtime Sample.says_hello)
                       Sample.put_messages)) <> [].
Proof.
  repeat split; try reflexivity; vm_compute; discriminate.
Qed.

Lemma C8_witness :
  runs (trace (handle_one_request (X := Sample.runtime Sample.says_hello)
                 (Sample.post Sample.body_A_B)))
  = [([lit "claude"; lit "-p"; lit "A" ++ [nl] ++ lit "B"], 120%Z)].
Proof.
  destruct (C8_prompt_without_system (X := Sample.runtime Sample.says_hello)
              (Sample.post Sample.body_A_B) [(lit "messages", Sample.messages_A_B)])
    as (_ & Hruns).
  - split; reflexivity.
  - exists Sample.body_A_B. split; vm_compute; reflexivity.
  - reflexivity.
  - reflexivity.
  - apply Hruns. reflexivity.
Defined.

Lemma C9_witness :
  handle_one_request (X := Sample.runtime Sample.says_hello) (Sample.post Sample.body_S)
  = handle_one_request (X := Sample.runtime Sample.says_hello)
      (Sample.post Sample.body_S_no_messages)
  /\ runs (trace (handle_one_request (X := Sample.runtime Sample.says_hello)
                    (Sample.post Sample.body_S)))
     = [([lit "claude"; lit "-p"; lit "S" ++ [nl]], 120%Z)].
Proof.
  destruct (C9_missing_messages_is_empty (X := Sample.runtime Sample.says_hello)
              (Sample.post Sample.body_S) (Sample.post Sample.body_S_no_messages)
              [(lit "system", VStr (lit "S"))])
    as (Hsame & prompt & Hprompt & Hruns).
  - split; reflexivity.
  - exists Sample.body_S. split; vm_compute; reflexivity.
  - reflexivity.
  - split; reflexivity.
  - exists Sample.body_S_no_messages. split; vm_compute; reflexivity.
  - split; [exact Hsame|].
    injection Hprompt as <-. apply Hruns. reflexivity.
Defined.

(** C9, as stated, fails: the body [[]] is valid JSON and has no
    messages key, and it is not handled as a request with no messages:
    line 43 raises [AttributeError], nothing is sent and the command is
    not run. *)
Lemma C9_array_body_raises :
  json_loads (Externals := Demo.runtime Demo.known Sample.says_hello)
    (Demo.json_text Demo.data_array) = inr (VList [])
  /\ handle_one_request (X := Demo.runtime Demo.known Sample.says_hello)
       (Demo.post Demo.data_array)
     = ([], inl (Exc AttributeError (lit "'list' object has no attribute 'get'"))).
Proof. split; vm_compute; reflexivity. Qed.

Lemma C10_witness :
  handle_one_request (X := Sample.runtime Sample.says_hello)
    (Sample.post Sample.body_empty_system)
  = handle_one_request (X := Sample.runtime Sample.says_hello)
      (Sample.post Sample.body_A_B)
  /\ full_prompt (X := Sample.runtime Sample.says_hello) Sample.data_empty_system
     = ret (lit "A" ++ [nl] ++ lit "B").
Proof.
  destruct (C10_empty_system_as_absent (X := Sample.runtime Sample.says_hello)
              (Sample.post Sample.body_empty_system) (Sample.post Sample.body_A_B)
              [(lit "system", VStr []); (lit "messages", Sample.messages_A_B)])
    as (_ & Hsame & Hruns).
  - split; reflexivity.
  - exists Sample.body_empty_system. split; vm_compute; reflexivity.
  - reflexivity.
  - reflexivity.
  - split; reflexivity.
  - exists Sample.body_A_B. split; vm_compute; reflexivity.
  - split; [exact Hsame|exact Hruns].
Defined.

(** * More of the handler *)

(** ** Which bodies build a prompt *)

Section Accepts.
Context {X : Externals}.

Lemma iterate_items_of (v : value) :
  match items_of v with
  | Some items => iterate v = ret items
  | None => exists msg, iterate v = raise (Exc TypeError msg)
  end.
Proof. destruct v; simpl; try reflexivity; eexists; reflexivity. Qed.

Lemma for_msg_in_objects (items parts : list value) :
  forallb has_get items = true ->
  for_msg_in items parts = ret (parts ++ map content_of items).
Proof.
  revert parts. induction items as [|msg items IH]; intros parts H; simpl.
  - now rewrite app_nil_r.
  - apply andb_true_iff in H as [Hm Hs].
    destruct msg; try discriminate Hm. cbn [get_method content_of].
    rewrite bind_ret_l, (IH _ Hs), <- app_assoc. reflexivity.
Qed.

Lemma for_msg_in_not_object (items parts : list value) :
  forallb has_get items = false ->
  exists msg, for_msg_in items parts = raise (Exc AttributeError msg).
Proof.
  revert parts. induction items as [|item items IH]; intros parts H; simpl in H.
  - discriminate.
  - destruct item; cbn [for_msg_in get_method]; try (eexists; reflexivity).
    rewrite bind_ret_l. apply IH. exact H.
Qed.

Lemma str_join_from_all_text (i : Z) (sep : str) (parts : list value) :
  forallb is_text parts = true ->
  str_join_from i sep parts = ret (map text_of parts).
Proof.
  revert i. induction parts as [|v parts IH]; intros i H; simpl; [reflexivity|].
  simpl in H. apply andb_true_iff in H as [Hv Hs].
  destruct v; try discriminate Hv. now rewrite (IH _ Hs).
Qed.

Lemma str_join_from_not_text (i : Z) (sep : str) (parts : list value) :
  forallb is_text parts = false ->
  exists msg, str_join_from i sep parts = raise (Exc TypeError msg).
Proof.
  revert i. induction parts as [|v parts IH]; intros i H; simpl in H.
  - discriminate.
  - destruct v; cbn [str_join_from]; try (eexists; reflexivity).
    destruct (IH (i + 1)%Z H) as (msg & Hmsg). rewrite Hmsg.
    eexists. reflexivity.
Qed.

Lemma forallb_map {A B} (f : A -> B) (p : B -> bool) (l : list A) :
  forallb p (map f l) = forallb (fun a => p (f a)) l.
Proof. induction l as [|a l IH]; simpl; [reflexivity|now rewrite IH]. Qed.

Lemma forallb_is_text_texts (ss : list str) : forallb is_text (map VStr ss) = true.
Proof. induction ss; simpl; auto. Qed.

(** Lines 42-55 either build [prompt_text] or raise an exception of
    the class [prompt_failure] names. *)
Lemma full_prompt_cases (data : value) :
  match prompt_failure data with
  | None => full_prompt data = ret (prompt_text data)
  | Some c => exists msg, full_prompt data = raise (Exc c msg)
  end.
Proof.
  destruct data as [| | | | | |d]; try (eexists; reflexivity).
  unfold prompt_failure, prompt_text, full_prompt. cbn [get_method].
  rewrite !bind_ret_l.
  set (messages := dict_get_default (lit "messages") (VList []) d).
  set (system := dict_get_default (lit "system") (VStr []) d).
  pose proof (iterate_items_of messages) as Hit.
  destruct (items_of messages) as [items|].
  - rewrite Hit, bind_ret_l.
    assert (Hparts : (if truthy system then [VStr (format_value system ++ [nl])]
                      else [])
                     = map VStr (if truthy system then [format_value system ++ [nl]]
                                 else [])) by now destruct (truthy system).
    rewrite Hparts.
    destruct (forallb has_get items) eqn:Hget; cbn [negb].
    + rewrite (for_msg_in_objects _ _ Hget), bind_ret_l.
      destruct (forallb (fun msg => is_text (content_of msg)) items) eqn:Htext;
        cbn [negb]; unfold str_join.
      * rewrite str_join_from_all_text, bind_ret_l.
        -- rewrite map_app, !map_map. cbn [text_of]. now rewrite map_id.
        -- now rewrite forallb_app, forallb_is_text_texts, forallb_map.
      * destruct (str_join_from_not_text 0 [nl]
                    (map VStr (if truthy system then [format_value system ++ [nl]]
                               else []) ++ map content_of items)) as (msg & Hmsg).
        { now rewrite forallb_app, forallb_is_text_texts, forallb_map. }
        rewrite Hmsg. eexists. reflexivity.
    + destruct (for_msg_in_not_object items
                  (map VStr (if truthy system then [format_value system ++ [nl]]
                             else [])) Hget) as (msg & Hmsg).
      rewrite Hmsg. eexists. reflexivity.
  - destruct Hit as (msg & Hmsg). rewrite Hmsg. eexists. reflexivity.
Qed.

(** X1: lines 42-55 build [prompt_text] exactly on the bodies
    [prompt_failure] lets through, and otherwise raise an exception of
    the class it names: [AttributeError] for a body or a message that is
    not an object, [TypeError] for [messages] that cannot be iterated or
    a [content] that is not a text. Every ChatRequest is let through. *)
Theorem full_prompt_outcome (data : value) :
  match prompt_failure data with
  | None => full_prompt data = ret (prompt_text data)
  | Some c => exists msg, full_prompt data = raise (Exc c msg)
  end
  /\ (is_chat_request data = true -> prompt_failure data = None).
Proof.
  split; [apply full_prompt_cases|].
  intro H. pose proof (full_prompt_cases data) as Hcases.
  destruct (prompt_failure data) as [c|]; [|reflexivity].
  destruct Hcases as (msg & Hmsg).
  rewrite (full_prompt_chat_request _ H) in Hmsg. discriminate Hmsg.
Qed.

End Accepts.

(** ** The handler on every request *)

Section Shape.
Context {X : Externals}.

Lemma handle_chat_raises (data : value) (e : exception) :
  full_prompt data = raise e -> handle_chat data = raise e.
Proof. intro H. unfold handle_chat. now rewrite H. Qed.

Lemma full_prompt_built (data : value) :
  prompt_failure data = None -> full_prompt data = ret (prompt_text data).
Proof.
  intro H. pose proof (full_prompt_cases data) as Hout. now rewrite H in Hout.
Qed.

Lemma handle_chat_built (data : value) :
  prompt_failure data = None ->
  prints (truncated (prompt_text data)) = true ->
  let argv := [lit "claude"; lit "-p"; prompt_text data] in
  handle_chat data
  = (prompt_log (prompt_text data)
     ++ Run argv 120 :: reply (prompt_text data) (subprocess_run argv 120),
     inr tt).
Proof.
  intros H Hprints. apply handle_chat_trace; [now apply full_prompt_built|exact Hprints].
Qed.

(** The events of [send_error] for a status with an error page. *)
Lemma send_error_page (self : Request) (code : Z) (message : str) :
  code = 400%Z \/ code = 501%Z ->
  exists page,
    page <> []
    /\ send_error self code message
       = ([ SendResponse code (Some message);
            SendHeader (lit "Connection") (lit "close");
            SendHeader (lit "Content-Type") error_content_type;
            SendHeader (lit "Content-Length") (int_str (len page));
            EndHeaders ]
          ++ (if str_eqb (command self) (lit "HEAD") then [] else [WriteBody page]),
          inr tt).
Proof.
  intro Hcode.
  set (explain :=
         match responses code with Some (_, longmsg) => longmsg | None => lit "???" end).
  exists (utf8_replace
            (error_message_format code (html_escape message) (html_escape explain))).
  destruct (error_page_head code (html_escape message) (html_escape explain))
    as (rest & Hpage).
  split; [rewrite Hpage; discriminate|].
  unfold send_error. fold explain.
  replace (Z.leb 200 code && negb (Z.eqb code 204 || Z.eqb code 205 || Z.eqb code 304))%bool
    with true by (destruct Hcode; subst code; reflexivity).
  rewrite Hpage.
  destruct (str_eqb (command self) (lit "HEAD")); reflexivity.
Qed.

(** The reply to a run is a JSON response with an ASCII body, after
    some lines of the response log. *)
Lemma reply_shape (prompt : str) (r : exception + CompletedProcess) :
  exists log code payload,
    reply prompt r = log ++ json_response code payload
    /\ (log = [] \/ (exists text, log = response_log text)
        \/ log = [PrintLine ([nl] ++ lit "RESPONSE:")])
    /\ (code = 200%Z \/ code = 500%Z \/ code = 504%Z)
    /\ is_ascii (json_dumps payload) = true.
Proof.
  destruct r as [e|result]; unfold reply.
  - destruct (exc_type e);
      try (exists [], 500%Z, (error_payload (exc_str e)); repeat split; auto;
           apply error_payload_ascii).
    exists [], 504%Z, (error_payload (lit "Claude CLI timeout")).
    repeat split; auto.
  - destruct (Z.eqb (returncode result) 0).
    + destruct (prints (truncated (strip (stdout result)))).
      * exists (response_log (strip (stdout result))), 200%Z,
          (response_payload (strip (stdout result)) prompt).
        repeat split; eauto. apply response_payload_ascii.
      * exists [PrintLine ([nl] ++ lit "RESPONSE:")], 500%Z,
          (error_payload (stdout_error (truncated (strip (stdout result))))).
        repeat split; auto. apply error_payload_ascii.
    + exists [], 500%Z, (error_payload (lit "Claude CLI error: " ++ stderr result)).
      repeat split; auto. apply error_payload_ascii.
Qed.

(** Every request is handled in one of six ways. *)
Lemma handle_one_request_shape (self : Request) :
  (exists e, handle_one_request self = ([], inl e))
  \/ (exists e,
        handle_one_request self
        = ([PrintLine ([nl] ++ repeat_char 61 50); PrintLine (lit "PROMPT:")], inl e))
  \/ (command self = lit "GET" /\ path self = lit "/health"
      /\ handle_one_request self
         = (json_response 200 (VDict [(lit "status", VStr (lit "ok"))]), inr tt))
  \/ handle_one_request self = ([SendResponse 404 None; EndHeaders], inr tt)
  \/ (exists code message,
        (code = 400%Z \/ code = 501%Z)
        /\ handle_one_request self = send_error self code message)
  \/ (exists prompt,
        posts_messages self
        /\ handle_one_request self
           = (prompt_log prompt
              ++ Run [lit "claude"; lit "-p"; prompt] 120
                 :: reply prompt (subprocess_run [lit "claude"; lit "-p"; prompt] 120),
              inr tt)).
Proof.
  unfold handle_one_request.
  destruct (str_eqb (command self) (lit "GET")) eqn:Hget.
  { apply str_eqb_eq in Hget. unfold do_GET.
    destruct (str_eqb (path self) (lit "/health")) eqn:Hp.
    - apply str_eqb_eq in Hp. right. right. left. repeat split; assumption.
    - right. right. right. left. reflexivity. }
  destruct (str_eqb (command self) (lit "POST")) eqn:Hpost.
  2:{ right. right. right. right. left. eexists. eexists.
      split; [right|]; reflexivity. }
  apply str_eqb_eq in Hpost.
  destruct (str_eqb (path self) (lit "/v1/messages")) eqn:Hp.
  2:{ right. right. right. left. unfold do_POST. now rewrite Hp. }
  apply str_eqb_eq in Hp.
  assert (Hposts : posts_messages self) by (split; assumption).
  destruct (rfile_read self) as [e|body] eqn:Hread.
  { left. exists e. unfold do_POST. now rewrite Hp, str_eqb_refl, Hread. }
  destruct (json_loads body) as [e|data] eqn:Hloads.
  - destruct (exc_type e) eqn:Hclass;
      try (left; exists e; unfold do_POST; rewrite Hp, str_eqb_refl, Hread;
           cbn [negb call bind]; rewrite Hloads; cbn [call bind try_except];
           rewrite Hclass; reflexivity).
    right. right. right. right. left.
    exists 400%Z, (lit "Invalid JSON: " ++ exc_str e).
    split; [now left|].
    rewrite <- (handle_invalid_json self body e Hposts Hread Hloads Hclass).
    now rewrite (handle_POST _ Hpost).
  - rewrite (do_POST_parsed self data Hp (ex_intro _ body (conj Hread Hloads))).
    pose proof (full_prompt_cases data) as Hout.
    destruct (prompt_failure data) as [c|] eqn:Hfail.
    + destruct Hout as (msg & Hmsg). left. eexists.
      apply handle_chat_raises. exact Hmsg.
    + destruct (prints (truncated (prompt_text data))) eqn:Hprints.
      * right. right. right. right. right. exists (prompt_text data).
        split; [assumption|]. now apply handle_chat_built.
      * right. left. eexists. apply (handle_chat_unprintable _ _ Hout Hprints).
Qed.

End Shape.

(** ** Reading a trace, piece by piece *)

Lemma statuses_app (a b : list event) : statuses (a ++ b) = statuses a ++ statuses b.
Proof.
  induction a as [|ev a IH]; [reflexivity|]. destruct ev; simpl; now rewrite IH.
Qed.

Lemma runs_app (a b : list event) : runs (a ++ b) = runs a ++ runs b.
Proof.
  induction a as [|ev a IH]; [reflexivity|]. destruct ev; simpl; now rewrite IH.
Qed.

Lemma headers_of_app (a b : list event) :
  headers_of (a ++ b) = headers_of a ++ headers_of b.
Proof.
  induction a as [|ev a IH]; [reflexivity|]. destruct ev; simpl; now rewrite IH.
Qed.

Lemma body_of_app (a b : list event) : body_of (a ++ b) = body_of a ++ body_of b.
Proof.
  induction a as [|ev a IH]; [reflexivity|].
  destruct ev; simpl; rewrite IH; try reflexivity. apply app_assoc.
Qed.

Lemma printed_app (a b : list event) : printed (a ++ b) = printed a ++ printed b.
Proof.
  induction a as [|ev a IH]; [reflexivity|]. destruct ev; simpl; now rewrite IH.
Qed.

Lemma byte_of_code (c : char) : c < 128 -> Byte.to_N (byte_of c) = c.
Proof.
  intro H. unfold byte_of. destruct (Byte.of_N c) as [b|] eqn:E.
  - now apply Byte.to_of_N.
  - apply Byte.of_N_None_iff in E. lia.
Qed.

(** The bytes of an ASCII text are its code points. *)
Lemma ascii_bytes_codes (s : str) :
  is_ascii s = true -> map Byte.to_N (ascii_bytes s) = s.
Proof.
  induction s as [|c s IH]; simpl; intro H; [reflexivity|].
  apply andb_true_iff in H as [Hc Hs]. apply N.ltb_lt in Hc.
  now rewrite (byte_of_code c Hc), (IH Hs).
Qed.

Lemma ascii_bytes_small (s : str) :
  is_ascii s = true -> Forall (fun b => Byte.to_N b < 128) (ascii_bytes s).
Proof.
  induction s as [|c s IH]; simpl; intro H; constructor.
  - apply andb_true_iff in H as [Hc _]. apply N.ltb_lt in Hc.
    now rewrite (byte_of_code c Hc).
  - apply IH. now apply andb_true_iff in H as [_ Hs].
Qed.

Lemma truncated_len {X : Externals} (s : str) : (len (truncated s) <= 503)%Z.
Proof.
  unfold truncated, len, prefix.
  destruct (Z.ltb 500 (Z.of_nat (List.length s))) eqn:E.
  - rewrite length_app, length_firstn. simpl List.length. lia.
  - apply Z.ltb_ge in E. lia.
Qed.

Section Invariants.
Context {X : Externals}.


Lemma chat_trace_headers (prompt : str) (argv : list str) (t : Z)
      (log : list event) (code : Z) (payload : value) :
  (log = [] \/ (exists text, log = response_log text)
   \/ log = [PrintLine ([nl] ++ lit "RESPONSE:")]) ->
  headers_of (prompt_log prompt ++ Run argv t :: log ++ json_response code payload)
  = [(lit "Content-Type", lit "application/json")].
Proof. intros [->|[(text & ->)| ->]]; reflexivity. Qed.

Lemma chat_trace_body (prompt : str) (argv : list str) (t : Z)
      (log : list event) (code : Z) (payload : value) :
  (log = [] \/ (exists text, log = response_log text)
   \/ log = [PrintLine ([nl] ++ lit "RESPONSE:")]) ->
  body_of (prompt_log prompt ++ Run argv t :: log ++ json_response code payload)
  = ascii_bytes (json_dumps payload).
Proof. intros [->|[(text & ->)| ->]]; cbn; apply app_nil_r. Qed.

Lemma chat_trace_printed (prompt : str) (argv : list str) (t : Z)
      (log : list event) (code : Z) (payload : value) :
  (log = [] \/ (exists text, log = response_log text)
   \/ log = [PrintLine ([nl] ++ lit "RESPONSE:")]) ->
  Forall (fun text => (len text <= 503)%Z)
    (printed (prompt_log prompt ++ Run argv t :: log ++ json_response code payload)).
Proof.
  intros [->|[(text & ->)| ->]];
    cbn [prompt_log response_log json_response app printed];
    repeat constructor; try apply truncated_len; vm_compute; discriminate.
Qed.

Lemma send_error_statuses (self : Request) (code : Z) (message : str) :
  code = 400%Z \/ code = 501%Z ->
  send_error self code message
  = (fst (send_error self code message), inr tt)
  /\ statuses (fst (send_error self code message)) = [code]
  /\ runs (fst (send_error self code message)) = []
  /\ printed (fst (send_error self code message)) = [].
Proof.
  intro Hcode. destruct (send_error_page self code message Hcode) as (page & _ & ->).
  cbn [fst]. destruct (str_eqb (command self) (lit "HEAD")); repeat split.
Qed.


(** X3: the command is run at most once per request, only for a POST to
    /v1/messages, always as [claude -p <prompt>] with the prompt as one
    argument and the time bound 120. *)
Theorem command_run_at_most_once (self : Request) :
  runs (trace (handle_one_request self)) = []
  \/ (posts_messages self
      /\ exists prompt,
           runs (trace (handle_one_request self))
           = [([lit "claude"; lit "-p"; prompt], 120%Z)]).
Proof.
  destruct (handle_one_request_shape self)
    as [(e & H)|[(e & H)|[(_ & _ & H)|[H|[(code & message & Hcode & H)
                                         |(prompt & Hp & H)]]]]];
    rewrite H.
  - now left.
  - now left.
  - now left.
  - now left.
  - left. now destruct (send_error_statuses self code message Hcode) as (_ & _ & Hr & _).
  - right. split; [exact Hp|]. exists prompt. apply runs_chat.
Qed.

(** X4: every text the handler prints has at most 503 characters,
    however long the prompt and the output of the command are. *)
Theorem printed_texts_are_bounded (self : Request) :
  Forall (fun text => (len text <= 503)%Z)
    (printed (trace (handle_one_request self))).
Proof.
  destruct (handle_one_request_shape self)
    as [(e & H)|[(e & H)|[(_ & _ & H)|[H|[(code & message & Hcode & H)
                                         |(prompt & Hp & H)]]]]];
    rewrite H; try (now constructor).
  - unfold trace. cbn [fst printed]. repeat constructor; vm_compute; discriminate.
  - destruct (send_error_statuses self code message Hcode) as (_ & _ & _ & Hpr).
    unfold trace. rewrite Hpr. constructor.
  - destruct (reply_shape prompt (subprocess_run [lit "claude"; lit "-p"; prompt] 120))
      as (log & code & payload & -> & Hlog & _).
    now apply chat_trace_printed.
Qed.

(** X5: a response with status 200, 500 or 504 carries exactly one
    header set by the handler, Content-Type: application/json, (no
    Content-Length), and a body of ASCII bytes only. *)
Theorem json_responses_are_ascii (self : Request) (code : Z) :
  statuses (trace (handle_one_request self)) = [code] ->
  code = 200%Z \/ code = 500%Z \/ code = 504%Z ->
  headers_of (trace (handle_one_request self))
  = [(lit "Content-Type", lit "application/json")]
  /\ Forall (fun b => Byte.to_N b < 128) (body_of (trace (handle_one_request self))).
Proof.
  intros Hst Hcode.
  destruct (handle_one_request_shape self)
    as [(e & H)|[(e & H)|[(_ & _ & H)|[H|[(c & message & Hc & H)
                                         |(prompt & Hp & H)]]]]];
    rewrite H in *.
  - discriminate Hst.
  - discriminate Hst.
  - split; [reflexivity|]. unfold trace. cbn [fst]. rewrite body_json_response.
    apply ascii_bytes_small. reflexivity.
  - injection Hst as <-. destruct Hcode as [?|[?|?]]; discriminate.
  - destruct (send_error_statuses self c message Hc) as (_ & Hs & _).
    unfold trace in Hst. rewrite Hs in Hst. injection Hst as <-.
    destruct Hc, Hcode as [?|[?|?]]; subst; discriminate.
  - destruct (reply_shape prompt (subprocess_run [lit "claude"; lit "-p"; prompt] 120))
      as (log & c & payload & -> & Hlog & _ & Hascii).
    unfold trace. cbn [fst]. split; [now apply chat_trace_headers|].
    rewrite (chat_trace_body _ _ _ _ _ _ Hlog). now apply ascii_bytes_small.
Qed.

End Invariants.

(** ** Failures *)

Section Failures.
Context {X : Externals}.

(** X6: when the parsed body does not build a prompt (it is not an
    object, [messages] cannot be iterated, a message is not an object or
    a [content] is not a text), the exception of lines 42-55 leaves the
    handler: no status line, no header and no body are sent, nothing is
    printed and the command is not run. *)
Theorem unbuildable_body_gets_no_response (self : Request) (data : value)
        (c : exc_class) :
  posts_messages self ->
  parses_as self data ->
  prompt_failure data = Some c ->
  exists msg, handle_one_request self = ([], inl (Exc c msg)).
Proof.
  intros Hpost Hparse Hfail. rewrite (handle_chat_request _ _ Hpost Hparse).
  pose proof (full_prompt_cases data) as Hout. rewrite Hfail in Hout.
  destruct Hout as (msg & Hmsg). exists msg. now apply handle_chat_raises.
Qed.

(** X7: only [JSONDecodeError] is answered with 400. An exception of
    reading the body, and any other exception of [json.loads] (a body
    that is not UTF-8), leaves the handler before anything is sent. *)
Theorem other_errors_escape (self : Request) (e : exception) :
  posts_messages self ->
  rfile_read self = inl e
  \/ (exists body,
        rfile_read self = inr body /\ json_loads body = inl e
        /\ exc_type e <> JSONDecodeError) ->
  handle_one_request self = ([], inl e).
Proof.
  intros [Hc Hp] H. rewrite (handle_POST _ Hc). unfold do_POST.
  rewrite Hp, str_eqb_refl. cbn [negb].
  destruct H as [Hread|(body & Hread & Hloads & Hclass)]; rewrite Hread;
    [reflexivity|].
  cbn [call bind]. rewrite Hloads. cbn [call bind try_except].
  destruct (exc_type e); try reflexivity. contradiction.
Qed.

(** X8: the 400 answer to a body that is not JSON closes the connection,
    announces in Content-Length the number of bytes of the page it
    writes, prints nothing and does not run the command. *)
Theorem invalid_json_is_not_run (self : Request) (body : bytes) (e : exception) :
  posts_messages self ->
  rfile_read self = inr body ->
  json_loads body = inl e ->
  exc_type e = JSONDecodeError ->
  let t := trace (handle_one_request self) in
  runs t = [] /\ printed t = [] /\ body_of t <> []
  /\ headers_of t
     = [ (lit "Connection", lit "close");
         (lit "Content-Type", lit "text/html;charset=utf-8");
         (lit "Content-Length", int_str (len (body_of t))) ].
Proof.
  intros Hpost Hread Hloads Hclass t. subst t.
  rewrite (handle_invalid_json _ _ _ Hpost Hread Hloads Hclass).
  destruct (send_error_page self 400 (lit "Invalid JSON: " ++ exc_str e)
              (or_introl eq_refl)) as (page & Hpage & ->).
  destruct Hpost as [Hc _]. rewrite Hc.
  change (str_eqb (lit "POST") (lit "HEAD")) with false.
  unfold trace. cbn [fst app runs printed body_of headers_of].
  rewrite app_nil_r. repeat split. exact Hpage.
Qed.

(** X9: for every body that builds a prompt whose line the handler can
    print before the run (line 59), the handler returns, and its status
    tells how the run ended: 200 exactly when the command exited with 0
    and the line of its text could be printed (line 83), 504 exactly
    when the run timed out, 500 exactly when the command exited with
    another status, its text could not be printed, or the run raised
    another exception. *)
Theorem status_tells_the_run (self : Request) (data : value) :
  posts_messages self ->
  parses_as self data ->
  prompt_failure data = None ->
  prints (truncated (prompt_text data)) = true ->
  let h := handle_one_request self in
  let r := subprocess_run [lit "claude"; lit "-p"; prompt_text data] 120 in
  outcome h = inr tt
  /\ (statuses (trace h) = [200%Z]
      <-> exists result,
            r = inr result /\ returncode result = 0%Z
            /\ prints (truncated (strip (stdout result))) = true)
  /\ (statuses (trace h) = [504%Z]
      <-> exists e, r = inl e /\ exc_type e = TimeoutExpired)
  /\ (statuses (trace h) = [500%Z]
      <-> (exists result,
             r = inr result
             /\ (returncode result <> 0%Z
                 \/ prints (truncated (strip (stdout result))) = false))
          \/ (exists e, r = inl e /\ exc_type e <> TimeoutExpired)).
Proof.
  intros Hpost Hparse Hbuilt Hprints h r. subst h.
  rewrite (handle_chat_request _ _ Hpost Hparse), (handle_chat_built _ Hbuilt Hprints).
  fold r. unfold trace, outcome. cbn [fst snd]. rewrite statuses_chat.
  split; [reflexivity|].
  destruct r as [e|result]; unfold reply.
  - assert (Hno200 : ~ exists result : CompletedProcess,
                inl e = inr result /\ returncode result = 0%Z
                /\ prints (truncated (strip (stdout result))) = true)
      by (intros (x & Hx & _); discriminate).
    assert (Hno500 : ~ exists result : CompletedProcess,
                inl e = inr result
                /\ (returncode result <> 0%Z
                    \/ prints (truncated (strip (stdout result))) = false))
      by (intros (x & Hx & _); discriminate).
    destruct (exc_type e) eqn:Hclass; rewrite statuses_json_response.
    all: split; [split; [discriminate|intro H; contradiction]|].
    all: split; split.
    all: try discriminate.
    all: try (intros (x & Hx & Hy); injection Hx as <-; congruence).
    all: try (intros [H|(x & Hx & Hy)];
              [contradiction|injection Hx as <-; congruence]).
    all: try (intros _; exists e; split; [reflexivity|assumption]).
    all: try (intros _; right; exists e; split; [reflexivity|congruence]).
    all: reflexivity.
  - assert (Hno504 : ~ exists e : exception,
                inr result = inl e /\ exc_type e = TimeoutExpired)
      by (intros (x & Hx & _); discriminate).
    assert (Hnoexc : ~ exists e : exception,
                inr result = inl e /\ exc_type e <> TimeoutExpired)
      by (intros (x & Hx & _); discriminate).
    destruct (Z.eqb (returncode result) 0) eqn:Hrc.
    + apply Z.eqb_eq in Hrc.
      destruct (prints (truncated (strip (stdout result)))) eqn:Htext.
      * cbn [response_log app statuses]. rewrite statuses_json_response.
        split; [|split]; split.
        -- intros _. exists result. repeat split; assumption.
        -- reflexivity.
        -- discriminate.
        -- intro H. contradiction.
        -- discriminate.
        -- intros [(x & Hx & [Hy|Hy])|H]; [| |contradiction];
             injection Hx as <-; congruence.
      * cbn [app statuses]. rewrite statuses_json_response.
        split; [|split]; split.
        -- discriminate.
        -- intros (x & Hx & _ & Hz). injection Hx as <-. congruence.
        -- discriminate.
        -- intro H. contradiction.
        -- intros _. left. exists result. split; [reflexivity|now right].
        -- reflexivity.
    + apply Z.eqb_neq in Hrc. rewrite statuses_json_response.
      split; [|split]; split.
      * discriminate.
      * intros (x & Hx & Hy & _). injection Hx as <-. congruence.
      * discriminate.
      * intro H. contradiction.
      * intros _. left. exists result. split; [reflexivity|now left].
      * reflexivity.
Qed.

(** X10: a request whose method is neither GET nor POST is answered by
    the base class with 501 and Connection: close; the command is not
    run, and the error page is written unless the method is HEAD. *)
Theorem other_methods_are_501 (self : Request) :
  command self <> lit "GET" ->
  command self <> lit "POST" ->
  let t := trace (handle_one_request self) in
  statuses t = [501%Z] /\ runs t = []
  /\ In (lit "Connection", lit "close") (headers_of t)
  /\ (body_of t = [] <-> command self = lit "HEAD").
Proof.
  intros Hget Hpost t. subst t. unfold handle_one_request.
  apply str_eqb_neq in Hget, Hpost. rewrite Hget, Hpost.
  destruct (send_error_page self 501
              (lit "Unsupported method (" ++ builtin_repr (VStr (command self))
               ++ lit ")") (or_intror eq_refl)) as (page & Hpage & ->).
  unfold trace. cbn [fst].
  rewrite statuses_app, runs_app, headers_of_app, body_of_app.
  destruct (str_eqb (command self) (lit "HEAD")) eqn:Hhead;
    cbn [statuses runs headers_of body_of app]; repeat split;
    try (left; reflexivity).
  - intros _. now apply str_eqb_eq.
  - rewrite app_nil_r. intro H. contradiction.
  - intro H. apply str_eqb_eq in H. congruence.
Qed.

End Failures.

(** ** Words and blank space *)

Lemma dropwhile_all (p : char -> bool) (s : str) :
  forallb p s = true -> dropwhile p s = [].
Proof.
  induction s as [|c s IH]; simpl; [reflexivity|]. intro H.
  apply andb_true_iff in H as [Hc Hs]. now rewrite Hc, IH.
Qed.

Lemma strip_blank (s : str) : forallb isspace s = true -> strip s = [].
Proof. intro H. unfold strip, lstrip, rstrip. now rewrite (dropwhile_all _ _ H). Qed.

Lemma split_from_blank (cur : option str) (s : str) :
  forallb isspace s = true ->
  split_from cur s = match cur with Some w => [w] | None => [] end.
Proof.
  revert cur. induction s as [|c s IH]; intros cur H; simpl; [reflexivity|].
  simpl in H. apply andb_true_iff in H as [Hc Hs]. rewrite Hc.
  destruct cur; rewrite (IH None Hs); reflexivity.
Qed.

(** Blank space between two texts separates their words. *)
Lemma split_from_space (cur : option str) (a : str) (c : char) (b : str) :
  isspace c = true ->
  split_from cur (a ++ c :: b) = split_from cur a ++ split b.
Proof.
  intro Hc. revert cur. induction a as [|x a IH]; intro cur; simpl.
  - rewrite Hc. now destruct cur.
  - destruct (isspace x); [destruct cur|]; now rewrite IH.
Qed.

Lemma split_space (a : str) (c : char) (b : str) :
  isspace c = true -> split (a ++ c :: b) = split a ++ split b.
Proof. apply split_from_space. Qed.

Lemma split_lead_blank (pre s : str) :
  forallb isspace pre = true -> split (pre ++ s) = split s.
Proof.
  induction pre as [|c pre IH]; simpl; [reflexivity|]. intro H.
  apply andb_true_iff in H as [Hc Hs]. unfold split. simpl. rewrite Hc.
  now apply IH.
Qed.

Lemma split_from_trail_blank (cur : option str) (s post : str) :
  forallb isspace post = true -> split_from cur (s ++ post) = split_from cur s.
Proof.
  intro H. revert cur. induction s as [|c s IH]; intro cur; simpl.
  - now apply split_from_blank.
  - destruct (isspace c); [destruct cur|]; now rewrite IH.
Qed.

(** X11: [strip] takes away a run of whitespace at each end and nothing
    else: the output of the command is blank space, the text, blank
    space, and the text neither begins nor ends with whitespace. *)
Theorem strip_trims (s : str) :
  (exists pre post,
     s = pre ++ strip s ++ post
     /\ forallb isspace pre = true /\ forallb isspace post = true)
  /\ (forall c rest, strip s = c :: rest -> isspace c = false)
  /\ (forall c rest, strip s = rest ++ [c] -> isspace c = false).
Proof.
  split; [apply strip_decompose|split].
  - apply strip_first.
  - intros c rest. apply strip_last.
Qed.

(** X12: stripping does not change the words: the count of the text
    sent back is the count of the raw output of the command; and every
    word counted is not empty and has no whitespace in it. *)
Theorem split_ignores_strip (s : str) :
  split (strip s) = split s
  /\ word_count (strip s) = word_count s
  /\ forallb is_word (split s) = true.
Proof.
  assert (H : split (strip s) = split s).
  { destruct (strip_decompose s) as (pre & post & Heq & Hpre & Hpost).
    rewrite Heq at 2. rewrite (split_lead_blank _ _ Hpre).
    unfold split. now rewrite (split_from_trail_blank _ _ _ Hpost). }
  split; [exact H|split].
  - unfold word_count. now rewrite H.
  - apply split_words.
Qed.

(** X13: the word count is 0 exactly for a text of whitespace only (the
    empty text included). *)
Theorem word_count_zero (s : str) :
  word_count s = 0%Z <-> forallb isspace s = true.
Proof.
  unfold word_count, len, split. split.
  - intro H. assert (Hnil : split_from None s = []).
    { destruct (split_from None s); [reflexivity|simpl in H; lia]. }
    clear H. revert Hnil.
    assert (Hsome : forall s w, split_from (Some w) s <> []).
    { clear. induction s as [|c s IH]; intro w; simpl; [discriminate|].
      destruct (isspace c); [discriminate|apply IH]. }
    induction s as [|c s IH]; simpl; [reflexivity|].
    destruct (isspace c); [exact IH|]. intro H. now apply Hsome in H.
  - intro H. now rewrite (split_from_blank None s H).
Qed.

Lemma sum_Z_app (a b : list Z) : sum_Z (a ++ b) = (sum_Z a + sum_Z b)%Z.
Proof. induction a as [|x a IH]; simpl; [reflexivity|]. rewrite IH. lia. Qed.

Lemma len_app {A} (a b : list A) : len (a ++ b) = (len a + len b)%Z.
Proof. unfold len. rewrite length_app. lia. Qed.

(** The words of lines joined by newlines are the words of the lines. *)
Lemma word_count_join (parts : list str) :
  word_count (join_str [nl] parts) = sum_Z (map word_count parts).
Proof.
  induction parts as [|p parts IH]; [reflexivity|].
  destruct parts as [|q parts].
  - simpl. lia.
  - change (join_str [nl] (p :: q :: parts))
      with (p ++ nl :: join_str [nl] (q :: parts)).
    unfold word_count in *. rewrite split_space by reflexivity.
    rewrite len_app, IH. reflexivity.
Qed.

Lemma word_count_newline (s : str) : word_count (s ++ [nl]) = word_count s.
Proof.
  unfold word_count, split.
  now rewrite (split_from_trail_blank None s [nl] eq_refl).
Qed.

Section Prompts.
Context {X : Externals}.

(** X14: for a ChatRequest, input_tokens, the word count of the prompt,
    is the sum of the word counts of the system text and of the content
    texts. *)
Theorem input_tokens_add_up (data : value) :
  is_chat_request data = true ->
  exists prompt,
    full_prompt data = ret prompt
    /\ word_count prompt
       = (word_count (chat_system data)
          + sum_Z (map word_count (chat_contents data)))%Z.
Proof.
  intro H. exists (chat_prompt data).
  split; [now apply full_prompt_chat_request|].
  unfold chat_prompt. rewrite word_count_join, map_app, sum_Z_app.
  destruct (str_eqb (chat_system data) []) eqn:E.
  - apply str_eqb_eq in E. now rewrite E.
  - cbn [map]. change (sum_Z [word_count (chat_system data ++ [nl])])
      with (word_count (chat_system data ++ [nl]) + 0)%Z.
    rewrite word_count_newline. now rewrite Z.add_0_r.
Qed.

(** X15: for a ChatRequest with a system text that is not empty, the
    prompt is the system text and a newline, followed, when there are
    messages, by a blank line's newline and the contents joined by
    newlines; with no messages it is the system text and the newline. *)
Theorem prompt_with_system (data : value) :
  is_chat_request data = true ->
  chat_system data <> [] ->
  full_prompt data
  = ret (chat_system data ++ [nl]
         ++ match chat_contents data with
            | [] => []
            | contents => [nl] ++ join_str [nl] contents
            end).
Proof.
  intros H Hsys. rewrite (full_prompt_chat_request _ H). unfold chat_prompt.
  apply str_eqb_neq in Hsys. rewrite Hsys.
  destruct (chat_contents data) as [|c cs]; simpl.
  - reflexivity.
  - now rewrite <- app_assoc.
Qed.

(** X16: a [system] that is falsy ([null], [false], 0, an empty text,
    list or object) is left out like an absent one: the prompt, and the
    whole handling, are those of the body without the key. *)
Theorem falsy_system_as_absent (d : dict) (v : value) :
  dict_get (lit "system") d = Some v ->
  truthy v = false ->
  full_prompt (VDict d) = full_prompt (VDict (dict_del (lit "system") d))
  /\ handle_chat (VDict d) = handle_chat (VDict (dict_del (lit "system") d)).
Proof.
  intros Hsys Hfalse.
  assert (H : full_prompt (VDict d) = full_prompt (VDict (dict_del (lit "system") d))).
  { unfold full_prompt, dict_get_default. cbn [get_method].
    rewrite !bind_ret_l, Hsys, dict_get_del_same, Hfalse.
    rewrite dict_get_del_other by discriminate. reflexivity. }
  split; [exact H|now apply handle_chat_ext].
Qed.

(** X17: a [system] that is truthy and not a text is not refused: its
    [repr] and a newline open the prompt. *)
Theorem other_system_is_formatted (d : dict) (v : value) :
  dict_get (lit "system") d = Some v ->
  truthy v = true ->
  is_text v = false ->
  prompt_failure (VDict d) = None ->
  exists rest,
    full_prompt (VDict d) = ret (builtin_repr v ++ [nl] ++ rest).
Proof.
  intros Hsys Htrue Htext Hbuilt.
  pose proof (full_prompt_cases (VDict d)) as Hout. rewrite Hbuilt in Hout.
  rewrite Hout. unfold prompt_text, dict_get_default. rewrite Hsys, Htrue.
  assert (Hfmt : format_value v = builtin_repr v) by (destruct v; try reflexivity; discriminate).
  rewrite Hfmt.
  destruct (map (fun msg => text_of (content_of msg))
              match items_of match dict_get (lit "messages") d with
                             | Some v0 => v0
                             | None => VList []
                             end with
              | Some l => l
              | None => []
              end) as [|c cs].
  - exists []. simpl. now rewrite ?app_nil_r.
  - exists ([nl] ++ join_str [nl] (c :: cs)). simpl. now rewrite <- ?app_assoc.
Qed.

(** X18: the handler sees a ChatRequest only through its system text
    and its content texts: two requests that agree on them (whatever
    their roles, model, max_tokens and other keys) are handled alike. *)
Theorem only_system_and_contents_matter (data data' : value) :
  is_chat_request data = true ->
  is_chat_request data' = true ->
  chat_system data = chat_system data' ->
  chat_contents data = chat_contents data' ->
  handle_chat data = handle_chat data'.
Proof.
  intros H H' Hsys Hcont. apply handle_chat_ext.
  rewrite (full_prompt_chat_request _ H), (full_prompt_chat_request _ H').
  unfold chat_prompt. now rewrite Hsys, Hcont.
Qed.

(** X19: the prompt does not keep the system text apart from the
    messages: a request with the system text [s] is handled as the
    request without system whose contents are [s], the empty text and
    then the same contents. *)
Theorem system_folds_into_messages (data data' : value) :
  is_chat_request data = true ->
  is_chat_request data' = true ->
  chat_system data <> [] ->
  chat_system data' = [] ->
  chat_contents data' = chat_system data :: [] :: chat_contents data ->
  handle_chat data = handle_chat data'.
Proof.
  intros H H' Hsys Hsys' Hcont. apply handle_chat_ext.
  rewrite (full_prompt_chat_request _ H), (full_prompt_chat_request _ H').
  unfold chat_prompt. rewrite Hsys', Hcont.
  apply str_eqb_neq in Hsys. rewrite Hsys. cbn [str_eqb app].
  change (str_eqb [] []) with true. cbn [app].
  destruct (chat_contents data) as [|c cs]; simpl.
  - now rewrite ?app_nil_r.
  - now rewrite <- ?app_assoc.
Qed.

(** X20: an object with neither [system] nor [messages] (the empty
    object) is not refused: the command is run with the empty prompt. *)
Theorem empty_request_runs_empty_prompt (self : Request) (d : dict) :
  posts_messages self ->
  parses_as self (VDict d) ->
  dict_get (lit "system") d = None ->
  dict_get (lit "messages") d = None ->
  runs (trace (handle_one_request self)) = [([lit "claude"; lit "-p"; []], 120%Z)]
  /\ outcome (handle_one_request self) = inr tt.
Proof.
  intros Hpost Hparse Hsys Hmsg.
  assert (Hchat : is_chat_request (VDict d) = true).
  { unfold is_chat_request. now rewrite Hsys, Hmsg. }
  assert (Hprompt : chat_prompt (VDict d) = []).
  { unfold chat_prompt, chat_system, chat_contents. now rewrite Hsys, Hmsg. }
  rewrite (handle_chat_request_trace _ _ Hpost Hparse Hchat)
    by now rewrite Hprompt.
  unfold trace, outcome. cbn [fst snd]. rewrite runs_chat, Hprompt.
  split; reflexivity.
Qed.

(** X21: when the command of a request whose prompt line the handler
    can print (line 59) exits with 0 and prints whitespace only (or
    nothing), the answer is still a 200: its text is empty and its
    output_tokens is 0. *)
Theorem blank_output_is_empty_text (self : Request) (data : value)
        (result : CompletedProcess) :
  posts_messages self ->
  parses_as self data ->
  is_chat_request data = true ->
  prints (truncated (chat_prompt data)) = true ->
  subprocess_run [lit "claude"; lit "-p"; chat_prompt data] 120 = inr result ->
  returncode result = 0%Z ->
  forallb isspace (stdout result) = true ->
  statuses (trace (handle_one_request self)) = [200%Z]
  /\ body_of (trace (handle_one_request self))
     = ascii_bytes
         (json_dumps
            (VDict
               [ (lit "content",
                  VList [VDict [(lit "type", VStr (lit "text")); (lit "text", VStr [])]]);
                 (lit "model", VStr (lit "claude-cli"));
                 (lit "usage",
                  VDict [ (lit "input_tokens", VInt (word_count (chat_prompt data)));
                          (lit "output_tokens", VInt 0) ]) ])).
Proof.
  intros Hpost Hparse Hchat Hprints Hrun Hcode Hblank.
  rewrite (handle_chat_request_trace _ _ Hpost Hparse Hchat Hprints), Hrun.
  unfold trace. cbn [fst]. rewrite statuses_chat, body_chat.
  unfold reply. rewrite Hcode. cbn [Z.eqb].
  rewrite (strip_blank _ Hblank).
  change (prints (truncated [])) with true. cbv iota. split; [reflexivity|].
  unfold response_log. cbn [app body_of]. apply app_nil_r.
Qed.

End Prompts.

(** ** The order of the effects *)

Lemma run_split_unique (t1 t1' t2 t2' : list event) (a a' : list str) (x x' : Z) :
  runs t1 = [] -> runs t1' = [] ->
  t1 ++ Run a x :: t2 = t1' ++ Run a' x' :: t2' ->
  t1 = t1'.
Proof.
  revert t1'. induction t1 as [|ev t1 IH]; intros [|ev' t1'] H1 H1' Heq;
    simpl in Heq.
  - reflexivity.
  - injection Heq as <- _. discriminate H1'.
  - injection Heq as -> _. discriminate H1.
  - injection Heq as <- Heq. f_equal.
    destruct ev; simpl in H1, H1'; try discriminate; now apply IH.
Qed.

(** X22: nothing reaches the client before the run of the command has
    ended: in the trace of any request, no status line, header or body
    precedes the run, and the status line follows it. *)
Theorem nothing_sent_before_the_run {X : Externals} (self : Request)
        (t1 t2 : list event) (argv : list str) (timeout : Z) :
  trace (handle_one_request self) = t1 ++ Run argv timeout :: t2 ->
  statuses t1 = [] /\ headers_of t1 = [] /\ body_of t1 = []
  /\ exists code, statuses t2 = [code].
Proof.
  intro Heq.
  destruct (handle_one_request_shape self)
    as [(e & H)|[(e & H)|[(_ & _ & H)|[H|[(code & message & Hcode & H)
                                         |(prompt & Hp & H)]]]]];
    rewrite H in Heq; unfold trace in Heq; cbn [fst] in Heq.
  - now destruct t1.
  - apply (f_equal runs) in Heq. rewrite runs_app in Heq. simpl in Heq.
    now destruct (runs t1).
  - apply (f_equal runs) in Heq. rewrite runs_app in Heq. simpl in Heq.
    now destruct (runs t1).
  - apply (f_equal runs) in Heq. rewrite runs_app in Heq. simpl in Heq.
    now destruct (runs t1).
  - destruct (send_error_statuses self code message Hcode) as (_ & _ & Hr & _).
    apply (f_equal runs) in Heq. rewrite Hr, runs_app in Heq. simpl in Heq.
    now destruct (runs t1).
  - assert (Hruns : runs t1 = []).
    { apply (f_equal runs) in Heq. rewrite runs_chat, runs_app in Heq.
      simpl in Heq. destruct (runs t1) as [|r rs]; [reflexivity|].
      injection Heq as _ Heq. now destruct rs. }
    pose proof (run_split_unique t1 (prompt_log prompt) _ _ _ _ _ _
                  Hruns eq_refl (eq_sym Heq)) as Ht1.
    subst t1. apply app_inv_head in Heq. injection Heq as _ _ <-.
    repeat split.
    destruct (reply_shape prompt (subprocess_run [lit "claude"; lit "-p"; prompt] 120))
      as (log & code & payload & -> & [->|[(text & ->)| ->]] & _);
      exists code; reflexivity.
Qed.

Lemma nothing_sent_before_the_run_witness :
  statuses (firstn 4 (trace (handle_one_request
                               (X := Demo.runtime Demo.known Sample.says_hello)
                               (Demo.post Demo.data_full)))) = []
  /\ exists code,
       statuses (skipn 5 (trace (handle_one_request
                                   (X := Demo.runtime Demo.known Sample.says_hello)
                                   (Demo.post Demo.data_full)))) = [code].
Proof.
  destruct (nothing_sent_before_the_run
              (X := Demo.runtime Demo.known Sample.says_hello)
              (Demo.post Demo.data_full)
              (firstn 4 (trace (handle_one_request
                                  (X := Demo.runtime Demo.known Sample.says_hello)
                                  (Demo.post Demo.data_full))))
              (skipn 5 (trace (handle_one_request
                                 (X := Demo.runtime Demo.known Sample.says_hello)
                                 (Demo.post Demo.data_full))))
              [lit "claude"; lit "-p";
               lit "Be brief" ++ [nl; nl] ++ lit "hello there" ++ [nl] ++ lit "bye"]
              120%Z) as (Hst & _ & _ & Hcode).
  - vm_compute. reflexivity.
  - split; assumption.
Defined.

(** ** The further properties on concrete requests *)

Lemma json_responses_are_ascii_witness :
  headers_of (trace (handle_one_request
                       (X := Demo.runtime Demo.known Sample.says_hello)
                       (Demo.post Demo.data_full)))
  = [(lit "Content-Type", lit "application/json")]
  /\ Forall (fun b => Byte.to_N b < 128)
       (body_of (trace (handle_one_request
                          (X := Demo.runtime Demo.known Sample.says_hello)
                          (Demo.post Demo.data_full)))).
Proof.
  apply (json_responses_are_ascii (X := Demo.runtime Demo.known Sample.says_hello)
           (Demo.post Demo.data_full) 200%Z).
  - vm_compute. reflexivity.
  - left. reflexivity.
Defined.

Lemma unbuildable_body_gets_no_response_witness :
  exists msg,
    handle_one_request (X := Demo.runtime Demo.known Sample.says_hello)
      (Demo.post Demo.data_block_content)
    = ([], inl (Exc TypeError msg)).
Proof.
  apply (unbuildable_body_gets_no_response
           (X := Demo.runtime Demo.known Sample.says_hello)
           (Demo.post Demo.data_block_content) Demo.data_block_content TypeError).
  - split; reflexivity.
  - exists (Demo.json_text Demo.data_block_content).
    split; [reflexivity|vm_compute; reflexivity].
  - reflexivity.
Defined.

Lemma other_errors_escape_witness :
  handle_one_request (X := Demo.runtime Demo.known Sample.says_hello)
    (Sample.post Demo.body_not_utf8)
  = ([], inl (Exc OtherException
                (lit "'utf-8' codec can't decode byte 0xff in position 0: invalid start byte"))).
Proof.
  apply (other_errors_escape (X := Demo.runtime Demo.known Sample.says_hello)
           (Sample.post Demo.body_not_utf8)).
  - split; reflexivity.
  - right. exists Demo.body_not_utf8.
    split; [reflexivity|split; [vm_compute; reflexivity|discriminate]].
Defined.

Lemma invalid_json_is_not_run_witness :
  runs (trace (handle_one_request (X := Sample.runtime Sample.says_hello)
                 (Sample.post Sample.body_malformed))) = []
  /\ In (lit "Content-Length", lit "421")
       (headers_of (trace (handle_one_request (X := Sample.runtime Sample.says_hello)
                             (Sample.post Sample.body_malformed)))).
Proof.
  destruct (invalid_json_is_not_run (X := Sample.runtime Sample.says_hello)
              (Sample.post Sample.body_malformed) Sample.body_malformed
              (Exc JSONDecodeError
                 (lit "Expecting property name enclosed in double quotes: line 1 column 2 (char 1)")))
    as (Hruns & _ & _ & Hheaders).
  - split; reflexivity.
  - reflexivity.
  - vm_compute; reflexivity.
  - reflexivity.
  - split; [exact Hruns|]. rewrite Hheaders. right. right. left. vm_compute. reflexivity.
Defined.

Lemma status_tells_the_run_witness :
  statuses (trace (handle_one_request
                     (X := Demo.runtime Demo.known Sample.says_hello)
                     (Demo.post Demo.data_full))) = [200%Z].
Proof.
  destruct (status_tells_the_run (X := Demo.runtime Demo.known Sample.says_hello)
              (Demo.post Demo.data_full) Demo.data_full)
    as (_ & H200 & _).
  - split; reflexivity.
  - exists (Demo.json_text Demo.data_full). split; [reflexivity|vm_compute; reflexivity].
  - reflexivity.
  - reflexivity.
  - apply H200. eexists. repeat split; reflexivity.
Defined.

Lemma other_methods_are_501_witness :
  statuses (trace (handle_one_request (X := Sample.runtime Sample.says_hello)
                     Sample.put_messages)) = [501%Z]
  /\ runs (trace (handle_one_request (X := Sample.runtime Sample.says_hello)
                    Sample.put_messages)) = [].
Proof.
  destruct (other_methods_are_501 (X := Sample.runtime Sample.says_hello)
              Sample.put_messages) as (Hst & Hruns & _).
  - vm_compute. discriminate.
  - vm_compute. discriminate.
  - split; assumption.
Defined.

Lemma input_tokens_add_up_witness :
  exists prompt,
    full_prompt (X := Demo.runtime Demo.known Sample.says_hello) Demo.data_full
    = ret prompt
    /\ word_count prompt = 5%Z.
Proof.
  destruct (input_tokens_add_up (X := Demo.runtime Demo.known Sample.says_hello)
              Demo.data_full) as (prompt & Hprompt & Hwords).
  - reflexivity.
  - exists prompt. split; [exact Hprompt|]. rewrite Hwords. reflexivity.
Defined.

Lemma prompt_with_system_witness :
  full_prompt (X := Demo.runtime Demo.known Sample.says_hello) Demo.data_full
  = ret (lit "Be brief" ++ [nl; nl] ++ lit "hello there" ++ [nl] ++ lit "bye").
Proof.
  apply (prompt_with_system (X := Demo.runtime Demo.known Sample.says_hello)
           Demo.data_full).
  - reflexivity.
  - discriminate.
Defined.

Lemma falsy_system_as_absent_witness :
  full_prompt (X := Demo.runtime Demo.known Sample.says_hello) Demo.data_null_system
  = full_prompt (X := Demo.runtime Demo.known Sample.says_hello)
      (VDict [(lit "messages", VList [VDict [(lit "content", VStr (lit "hi"))]])]).
Proof.
  apply (falsy_system_as_absent (X := Demo.runtime Demo.known Sample.says_hello)
           [ (lit "system", VNone);
             (lit "messages", VList [VDict [(lit "content", VStr (lit "hi"))]]) ]
           VNone); reflexivity.
Defined.

Lemma other_system_is_formatted_witness :
  exists rest,
    full_prompt (X := Demo.runtime Demo.known Sample.says_hello)
      Demo.data_number_system
    = ret (lit "7" ++ [nl] ++ rest).
Proof.
  apply (other_system_is_formatted (X := Demo.runtime Demo.known Sample.says_hello)
           [(lit "system", VInt 7)] (VInt 7)); reflexivity.
Defined.

Lemma only_system_and_contents_matter_witness :
  handle_chat (X := Demo.runtime Demo.known Sample.says_hello) Demo.data_full
  = handle_chat (X := Demo.runtime Demo.known Sample.says_hello) Demo.data_bare.
Proof.
  apply (only_system_and_contents_matter
           (X := Demo.runtime Demo.known Sample.says_hello)
           Demo.data_full Demo.data_bare); reflexivity.
Defined.

Lemma system_folds_into_messages_witness :
  handle_chat (X := Demo.runtime Demo.known Sample.says_hello) Demo.data_bare
  = handle_chat (X := Demo.runtime Demo.known Sample.says_hello) Demo.data_folded.
Proof.
  apply (system_folds_into_messages
           (X := Demo.runtime Demo.known Sample.says_hello)
           Demo.data_bare Demo.data_folded);
    try reflexivity. discriminate.
Defined.

Lemma empty_request_runs_empty_prompt_witness :
  runs (trace (handle_one_request (X := Demo.runtime Demo.known Sample.says_hello)
                 (Demo.post Demo.data_empty)))
  = [([lit "claude"; lit "-p"; []], 120%Z)]
  /\ outcome (handle_one_request (X := Demo.runtime Demo.known Sample.says_hello)
                (Demo.post Demo.data_empty)) = inr tt.
Proof.
  apply (empty_request_runs_empty_prompt
           (X := Demo.runtime Demo.known Sample.says_hello)
           (Demo.post Demo.data_empty) []).
  - split; reflexivity.
  - exists (Demo.json_text Demo.data_empty). split; [reflexivity|vm_compute; reflexivity].
  - reflexivity.
  - reflexivity.
Defined.

Lemma blank_output_is_empty_text_witness :
  statuses (trace (handle_one_request
                     (X := Demo.runtime Demo.known Demo.says_nothing)
                     (Demo.post Demo.data_full))) = [200%Z]
  /\ body_of (trace (handle_one_request
                       (X := Demo.runtime Demo.known Demo.says_nothing)
                       (Demo.post Demo.data_full)))
     = ascii_bytes
         (json_dumps (X := Demo.runtime Demo.known Demo.says_nothing)
            (VDict
               [ (lit "content",
                  VList [VDict [(lit "type", VStr (lit "text")); (lit "text", VStr [])]]);
                 (lit "model", VStr (lit "claude-cli"));
                 (lit "usage",
                  VDict [ (lit "input_tokens", VInt 5);
                          (lit "output_tokens", VInt 0) ]) ])).
Proof.
  apply (blank_output_is_empty_text (X := Demo.runtime Demo.known Demo.says_nothing)
           (Demo.post Demo.data_full) Demo.data_full
           {| returncode := 0; stdout := lit "  " ++ [nl]; stderr := [] |}).
  - split; reflexivity.
  - exists (Demo.json_text Demo.data_full). split; [reflexivity|vm_compute; reflexivity].
  - reflexivity.
  - reflexivity.
  - reflexivity.
  - reflexivity.
  - reflexivity.
Defined.

Lemma full_prompt_outcome_witness :
  prompt_failure Demo.data_full = None
  /\ full_prompt (X := Demo.runtime Demo.known Sample.says_hello) Demo.data_full
     = ret (prompt_text (X := Demo.runtime Demo.known Sample.says_hello) Demo.data_full).
Proof.
  destruct (full_prompt_outcome (X := Demo.runtime Demo.known Sample.says_hello)
              Demo.data_full) as (Hcases & Hchat).
  split; [apply Hchat; reflexivity|].
  rewrite (Hchat eq_refl) in Hcases. exact Hcases.
Defined.

Lemma strip_trims_witness :
  strip (lit "  Hello" ++ [nl]) = lit "Hello" /\ isspace 72 = false.
Proof.
  destruct (strip_trims (lit "  Hello" ++ [nl])) as (_ & Hfirst & _).
  split; [reflexivity|].
  apply (Hfirst 72 (lit "ello")). reflexivity.
Defined.

Lemma word_count_zero_witness : word_count (lit "  " ++ [nl]) = 0%Z.
Proof.
  apply (proj2 (word_count_zero (lit "  " ++ [nl]))). reflexivity.
Defined.

(** ** Lines the standard output cannot encode *)

(** X23: when the body builds a prompt whose line the standard output
    cannot encode, the [print] of line 59, which is outside the [try],
    raises [UnicodeEncodeError] after the first two lines are printed:
    the command is not run and nothing is sent. *)
Theorem unprintable_prompt_raises {X : Externals} (self : Request) (data : value) :
  posts_messages self ->
  parses_as self data ->
  prompt_failure data = None ->
  prints (truncated (prompt_text data)) = false ->
  handle_one_request self
  = ([PrintLine ([nl] ++ repeat_char 61 50); PrintLine (lit "PROMPT:")],
     inl (Exc UnicodeEncodeError (stdout_error (truncated (prompt_text data))))).
Proof.
  intros Hpost Hparse Hbuilt Hprints. rewrite (handle_chat_request _ _ Hpost Hparse).
  apply handle_chat_unprintable; [now apply full_prompt_built|exact Hprints].
Qed.

(** X24: when the command has exited with 0 and the line of its text
    cannot be encoded by the standard output, the [print] of line 83,
    inside the [try], raises and the generic handler answers: status
    500 with the text of the [UnicodeEncodeError] as message. *)
Theorem unprintable_text_is_500 {X : Externals} (self : Request) (data : value)
        (result : CompletedProcess) :
  posts_messages self ->
  parses_as self data ->
  prompt_failure data = None ->
  prints (truncated (prompt_text data)) = true ->
  subprocess_run [lit "claude"; lit "-p"; prompt_text data] 120 = inr result ->
  returncode result = 0%Z ->
  prints (truncated (strip (stdout result))) = false ->
  statuses (trace (handle_one_request self)) = [500%Z]
  /\ body_of (trace (handle_one_request self))
     = ascii_bytes
         (json_dumps
            (VDict [(lit "error",
                     VDict [(lit "message",
                             VStr (stdout_error (truncated (strip (stdout result)))))])]))
  /\ outcome (handle_one_request self) = inr tt.
Proof.
  intros Hpost Hparse Hbuilt Hprints Hrun Hcode Htext.
  rewrite (handle_chat_request _ _ Hpost Hparse), (handle_chat_built _ Hbuilt Hprints).
  rewrite Hrun. unfold trace, outcome. cbn [fst snd].
  rewrite statuses_chat, body_chat. unfold reply. rewrite Hcode. cbn [Z.eqb].
  rewrite Htext. cbn [statuses body_of]. rewrite body_json_response.
  repeat split.
Qed.

Lemma unprintable_prompt_raises_witness :
  handle_one_request (X := Demo.runtime Demo.known Sample.says_hello)
    (Demo.post Demo.data_surrogate)
  = ([PrintLine ([nl] ++ repeat_char 61 50); PrintLine (lit "PROMPT:")],
     inl (Exc UnicodeEncodeError
            (lit "'utf-8' codec can't encode character '\ud83d' in position 0: surrogates not allowed"))).
Proof.
  apply (unprintable_prompt_raises (X := Demo.runtime Demo.known Sample.says_hello)
           (Demo.post Demo.data_surrogate) Demo.data_surrogate).
  - split; reflexivity.
  - exists (Demo.json_text Demo.data_surrogate).
    split; [reflexivity|vm_compute; reflexivity].
  - reflexivity.
  - reflexivity.
Defined.

Lemma unprintable_text_is_500_witness :
  statuses (trace (handle_one_request
                     (X := Demo.runtime_ascii Demo.known Demo.says_cafe)
                     (Demo.post Demo.data_full))) = [500%Z]
  /\ body_of (trace (handle_one_request
                       (X := Demo.runtime_ascii Demo.known Demo.says_cafe)
                       (Demo.post Demo.data_full)))
     = ascii_bytes
         (json_dumps (X := Demo.runtime_ascii Demo.known Demo.says_cafe)
            (VDict [(lit "error",
                     VDict [(lit "message",
                             VStr (lit "'ascii' codec can't encode character '\xe9' in position 3: ordinal not in range(128)"))])]))
  /\ outcome (handle_one_request
                (X := Demo.runtime_ascii Demo.known Demo.says_cafe)
                (Demo.post Demo.data_full)) = inr tt.
Proof.
  apply (unprintable_text_is_500 (X := Demo.runtime_ascii Demo.known Demo.says_cafe)
           (Demo.post Demo.data_full) Demo.data_full
           {| returncode := 0; stdout := lit "caf" ++ [233]; stderr := [] |}).
  - split; reflexivity.
  - exists (Demo.json_text Demo.data_full). split; [reflexivity|vm_compute; reflexivity].
  - reflexivity.
  - reflexivity.
  - reflexivity.
  - reflexivity.
  - reflexivity.
Defined.
